(** * budget_bot: the webhook handler of [final.py], embedded and verified

    The development follows [final.py] function by function.

    - Python [str] values are Rocq [string]s, read as the sequence of
      characters of the message.  Character classes ([\d], [\s], [\w]),
      [str.strip] and [str.lower] are the ASCII ones; characters outside
      ASCII are kept and compared verbatim.  On ASCII text ([is_ascii]) they
      are Python's; a statement about which characters a text holds
      (digits, whitespace, unit tokens) carries the hypothesis that the
      part of the text it classifies is ASCII.
    - Python [float] is the interface [PyFloat]: every definition and theorem
      is parametric in it, so nothing depends on how binary64 rounds.  An
      exact decimal instance, [DecFloat], runs the code on concrete inputs.
    - [json.loads] is the interface [JsonLoads].
    - The DynamoDB table and the process-wide [deletion_confirmations] dict are
      [gmap]s inside a [world], next to the outbox: the list of messages
      posted to the chat API.  Every call of the handler also receives an
      [env], the answers of the outside world during that call (clock, uuid,
      classifier response, DynamoDB failures).  A scan returns all matching
      items of the table at once.  The clock counts whole seconds.
    - A [try] body is a [result]; [try_except] and the matches on [Raise] are
      the [except] clauses. *)

From Stdlib Require Import ZArith Ascii String.
From stdpp Require Import base option list sorting gmap strings pretty.

Open Scope string_scope.
Set Warnings "-register-all".

(** ** Text primitives *)

Module Text.

Definition code (c : ascii) : N := N_of_ascii c.

(** [\d] *)
Definition is_digit (c : ascii) : bool :=
  (48 <=? code c)%N && (code c <=? 57)%N.

(** [\s], also the set removed by [str.strip()]: TAB LF VT FF CR, FS GS RS US
    and SPACE. *)
Definition is_space (c : ascii) : bool :=
  ((9 <=? code c)%N && (code c <=? 13)%N)
  || ((28 <=? code c)%N && (code c <=? 32)%N).

Definition is_upper (c : ascii) : bool :=
  (65 <=? code c)%N && (code c <=? 90)%N.

Definition is_lower (c : ascii) : bool :=
  (97 <=? code c)%N && (code c <=? 122)%N.

(** [\w] *)
Definition is_word (c : ascii) : bool :=
  is_digit c || is_upper c || is_lower c || (code c =? 95)%N.

Definition lower_char (c : ascii) : ascii :=
  if is_upper c then ascii_of_N (code c + 32) else c.

(** [s.lower()] *)
Fixpoint lower (s : string) : string :=
  match s with
  | EmptyString => EmptyString
  | String c s' => String (lower_char c) (lower s')
  end.

(** [s.replace(c, '')] for a one-character [c] *)
Fixpoint remove_char (x : ascii) (s : string) : string :=
  match s with
  | EmptyString => EmptyString
  | String c s' =>
      if Ascii.eqb c x then remove_char x s' else String c (remove_char x s')
  end.

Fixpoint lstrip (s : string) : string :=
  match s with
  | EmptyString => EmptyString
  | String c s' => if is_space c then lstrip s' else s
  end.

(** [s.rstrip(chars)]: trailing characters in [p] are dropped. *)
Fixpoint rstrip_with (p : ascii -> bool) (s : string) : string :=
  match s with
  | EmptyString => EmptyString
  | String c s' =>
      match rstrip_with p s' with
      | EmptyString => if p c then EmptyString else String c EmptyString
      | r => String c r
      end
  end.

Definition rstrip (s : string) : string := rstrip_with is_space s.

(** [s.strip()] *)
Definition strip (s : string) : string := rstrip (lstrip s).

(** [s.title()]: a letter is upper-cased after a character without case and
    lower-cased after a letter. *)
Definition upper_char (c : ascii) : ascii :=
  if is_lower c then ascii_of_N (code c - 32) else c.

Fixpoint title_from (prev_cased : bool) (s : string) : string :=
  match s with
  | EmptyString => EmptyString
  | String c s' =>
      if is_upper c || is_lower c then
        String (if prev_cased then lower_char c else upper_char c) (title_from true s')
      else String c (title_from false s')
  end.

Definition title (s : string) : string := title_from false s.

(** [s.startswith(p)] *)
Fixpoint startswith (p s : string) : bool :=
  match p, s with
  | EmptyString, _ => true
  | String _ _, EmptyString => false
  | String a p', String b s' => Ascii.eqb a b && startswith p' s'
  end.

(** [p in s] on strings *)
Fixpoint contains (p s : string) : bool :=
  startswith p s
  || match s with
     | EmptyString => false
     | String _ s' => contains p s'
     end.

(** [any(p in s for p in ps)] *)
Definition contains_any (ps : list string) (s : string) : bool :=
  existsb (fun p => contains p s) ps.

Fixpoint all_chars (p : ascii -> bool) (s : string) : bool :=
  match s with
  | EmptyString => true
  | String c s' => p c && all_chars p s'
  end.

Definition no_digit (s : string) : bool := all_chars (fun c => negb (is_digit c)) s.

(** [s.isascii()]: on such a text the character classes above are the ones
    of Python 3, which takes [\d], [\s], [\w], [strip] and [lower] over all
    of Unicode. *)
Definition is_ascii (s : string) : bool := all_chars (fun c => (code c <? 128)%N) s.

(** The head of [s] satisfies [p]. *)
Definition head_is (p : ascii -> bool) (s : string) : bool :=
  match s with
  | EmptyString => false
  | String c _ => p c
  end.

(** A greedy run [p*]: the longest prefix of characters in [p], and the rest. *)
Fixpoint span (p : ascii -> bool) (s : string) : string * string :=
  match s with
  | EmptyString => (EmptyString, EmptyString)
  | String c s' =>
      if p c then let '(a, b) := span p s' in (String c a, b)
      else (EmptyString, s)
  end.

(** A literal under [re.IGNORECASE]: the matched text and the rest. *)
Fixpoint match_literal_ci (lit s : string) : option (string * string) :=
  match lit with
  | EmptyString => Some (EmptyString, s)
  | String a lit' =>
      match s with
      | EmptyString => None
      | String b s' =>
          if Ascii.eqb (lower_char a) (lower_char b) then
            match match_literal_ci lit' s' with
            | Some (m, r) => Some (String b m, r)
            | None => None
            end
          else None
      end
  end.

(** A literal, case-sensitive: the rest after it. *)
Fixpoint match_literal (lit s : string) : option string :=
  match lit with
  | EmptyString => Some s
  | String a lit' =>
      match s with
      | EmptyString => None
      | String b s' => if Ascii.eqb a b then match_literal lit' s' else None
      end
  end.

(** An ordered alternation [(a|b|...)] of literals: the first alternative that
    matches wins. *)
Fixpoint match_alternation_ci (alts : list string) (s : string)
  : option (string * string) :=
  match alts with
  | [] => None
  | a :: alts' =>
      match match_literal_ci a s with
      | Some r => Some r
      | None => match_alternation_ci alts' s
      end
  end.

Fixpoint last_index_of (x : ascii) (s : string) : option nat :=
  match s with
  | EmptyString => None
  | String c s' =>
      match last_index_of x s' with
      | Some i => Some (S i)
      | None => if Ascii.eqb c x then Some 0 else None
      end
  end.

(** [s[:n]] *)
Fixpoint str_take (n : nat) (s : string) : string :=
  match n, s with
  | S n', String c s' => String c (str_take n' s')
  | _, _ => EmptyString
  end.

Definition is_empty (s : string) : bool :=
  match s with EmptyString => true | _ => false end.

(** The text starts with neither digit, whitespace nor dot (or is empty). *)
Definition plain_head (s : string) : bool :=
  negb (head_is (fun c => is_digit c || is_space c || Ascii.eqb c "."%char) s).

(** A decimal part as [(\.\d+)?] takes it: nothing, or a dot and digits. *)
Definition is_fraction (s : string) : bool :=
  match s with
  | EmptyString => true
  | String c fs => Ascii.eqb c "."%char && negb (is_empty fs) && all_chars is_digit fs
  end.

End Text.

Import Text.

(** ** Python values *)

(** The [float] type as the handler uses it.  [None] stands for the exception
    the Python operation raises ([ValueError], [OverflowError]). *)
Class PyFloat : Type := {
  float : Type;
  (** [float(s)] for a [str] *)
  float_of_str : string -> option float;
  (** [float(n)] for an [int] *)
  float_of_int : Z -> option float;
  (** [x * n] for an [int] [n] *)
  float_mul_int : float -> Z -> float;
  (** [bool(x)], that is [x != 0] *)
  float_truthy : float -> bool;
  (** [x > 0] *)
  float_gt0 : float -> bool;
  (** [x <= 0] *)
  float_le0 : float -> bool;
  (** [n < x] for an [int] [n] *)
  int_lt_float : Z -> float -> bool;
  (** [str(x)] *)
  str_of_float : float -> string;
  (** ['{:,.2f}'.format(x)] and ['{:,.0f}'.format(x)] *)
  format_2f : float -> string;
  format_0f : float -> string
}.

(** What the proofs use of [float(s)] and of the two formats. *)
Class PyFloatLaws (PF : PyFloat) : Prop := {
  (** A text that [float] reads is read as the same number after [strip].
      (Not the other way round: [float] rejects a text that starts or ends
      with one of FS, GS, RS, US, which [strip] removes.) *)
  float_of_str_strip : forall s x,
    float_of_str s = Some x -> float_of_str (strip s) = Some x;
  (** [float] accepts every text of the form digits or digits.digits. *)
  float_of_str_literal : forall ds frac,
    ds <> EmptyString -> all_chars is_digit ds = true -> is_fraction frac = true ->
    is_Some (float_of_str (ds +:+ frac));
  (** A formatted number holds no whitespace. *)
  format_2f_no_space : forall x,
    all_chars (fun c => negb (is_space c)) (format_2f x) = true;
  format_0f_no_space : forall x,
    all_chars (fun c => negb (is_space c)) (format_0f x) = true
}.

(** A decoded JSON document.  An object keeps its members in document order;
    [dict_get] reads the last one of a repeated key, as [json.loads] does.
    [JNull] is Python's [None]. *)
Inductive json {PF : PyFloat} : Type :=
  | JNull
  | JBool (b : bool)
  | JInt (n : Z)
  | JFloat (x : float)
  | JStr (s : string)
  | JArr (l : list json)
  | JObj (members : list (string * json)).

(** [json.loads]; [None] is [json.JSONDecodeError]. *)
Class JsonLoads {PF : PyFloat} : Type := {
  json_loads : string -> option json
}.

(** The outcome of a [try] body. *)
Inductive result (A : Type) : Type :=
  | Ok (a : A)
  | Raise.
Arguments Ok {A} a.
Arguments Raise {A}.

#[global] Instance result_ret : MRet result := fun _ a => Ok a.
#[global] Instance result_fmap : FMap result := fun _ _ f m =>
  match m with
  | Ok a => Ok (f a)
  | Raise => Raise
  end.
#[global] Instance result_bind : MBind result := fun _ _ f m =>
  match m with
  | Ok a => f a
  | Raise => Raise
  end.

Definition of_option {A} (o : option A) : result A :=
  match o with
  | Some a => Ok a
  | None => Raise
  end.

(** [try: body / except Exception: handler] *)
Definition try_except {A} (body : result A) (handler : A) : A :=
  match body with
  | Ok a => a
  | Raise => handler
  end.

(** What [requests.post] to the classifier, [raise_for_status], [response.json()]
    and the walk down to [candidates[0].content.parts[0].text] produce. *)
Inductive api_outcome : Type :=
  | NetworkError
  | Timeout
  | HttpError (status : Z)
  | BadEnvelope
  | ResponseText (text : string).

Definition response_text (o : api_outcome) : result string :=
  match o with
  | ResponseText t => Ok t
  | _ => Raise
  end.

Definition str_in (s : string) (l : list string) : bool :=
  existsb (String.eqb s) l.

Section Analysis.
Context {PF : PyFloat} {JL : JsonLoads}.

Fixpoint dict_get (k : string) (members : list (string * json)) : option json :=
  match members with
  | [] => None
  | (k', v) :: rest =>
      match dict_get k rest with
      | Some v' => Some v'
      | None => if String.eqb k k' then Some v else None
      end
  end.

(** ** Amount parser *)

(** The groups of
    [(\d+(\.\d+)?)\s*(k|thousand|l|lakh|lakhs|cr|crore|crores)?]. *)
Record amount_match : Type := {
  group1 : string;
  group3 : option string
}.

Definition unit_alternatives : list string :=
  ["k"; "thousand"; "l"; "lakh"; "lakhs"; "cr"; "crore"; "crores"].

(** The optional group [(\.\d+)?]: its text and the rest. *)
Definition match_fraction (s : string) : string * string :=
  match s with
  | String c s' =>
      if Ascii.eqb c "."%char then
        let '(fs, r) := span is_digit s' in
        if is_empty fs then (EmptyString, s) else (String c fs, r)
      else (EmptyString, s)
  | EmptyString => (EmptyString, s)
  end.

(** The pattern at one start position.  Every part after [\d+] may match the
    empty string, so the greedy choice of each part is the one the
    backtracking matcher returns. *)
Definition match_amount_at (s : string) : option amount_match :=
  let '(ds, r1) := span is_digit s in
  if is_empty ds then None
  else
    let '(frac, r2) := match_fraction r1 in
    let '(_, r3) := span is_space r2 in
    Some {| group1 := ds +:+ frac;
            group3 := fst <$> match_alternation_ci unit_alternatives r3 |}.

(** [re.search]: the leftmost start position that matches. *)
Fixpoint search_amount (s : string) : option amount_match :=
  match match_amount_at s with
  | Some m => Some m
  | None =>
      match s with
      | EmptyString => None
      | String _ s' => search_amount s'
      end
  end.

Definition apply_multiplier (amount : float) (multiplier : option string) : float :=
  match multiplier with
  | Some multiplier =>
      if is_empty multiplier then amount
      else
        let multiplier := lower multiplier in
        if str_in multiplier ["k"; "thousand"] then float_mul_int amount 1000
        else if str_in multiplier ["l"; "lakh"; "lakhs"] then float_mul_int amount 100000
        else if str_in multiplier ["cr"; "crore"; "crores"] then float_mul_int amount 10000000
        else amount
  | None => amount
  end.

Definition extract_inr_amount (text : string) : option float :=
  let text := strip (lower (remove_char ","%char text)) in
  match search_amount text with
  | Some m =>
      match float_of_str (group1 m) with
      | Some amount => Some (apply_multiplier amount (group3 m))
      | None => None (* except: logged, then the final [return None] *)
      end
  | None => None
  end.

(** ** Formatting and the deterministic fallback *)

(** [float(v)] *)
Definition float_of_value (v : json) : result float :=
  match v with
  | JFloat x => Ok x
  | JInt n => of_option (float_of_int n)
  | JBool b => of_option (float_of_int (if b then 1 else 0))
  | JStr s => of_option (float_of_str s)
  | JNull | JArr _ | JObj _ => Raise (* TypeError *)
  end.

(** ['.' in str(v)] for a value [float(v)] accepted: the decimal text of an
    [int] and [True]/[False] hold no dot. *)
Definition dot_in_str (v : json) : bool :=
  match v with
  | JFloat x => contains "." (str_of_float x)
  | _ => false
  end.

Definition format_inr (amount : json) : string :=
  try_except
    (amount ← match amount with
              | JStr s => JFloat <$> of_option (float_of_str (remove_char ","%char s))
              | _ => Ok amount
              end;
     num ← float_of_value amount;
     Ok (if dot_in_str amount
         then rstrip_with (Ascii.eqb "."%char)
                (rstrip_with (Ascii.eqb "0"%char) (format_2f num))
         else format_0f num))
    "???".

Definition electronics_emojis : list string :=
  ["💻"; "📱"; "⌚"; "🖥️"; "🖨️"; "📷"; "🎮"].
Definition food_emojis : list string :=
  ["🍕"; "🍔"; "🍟"; "🍗"; "🍖"; "🥗"; "🍣"; "🍩"; "🍦"; "🍨"; "🧁"; "🍰"; "🍪"].
Definition transport_emojis : list string :=
  ["🚗"; "🚕"; "🚌"; "🚆"; "✈️"; "🛵"; "🚲"; "🚅"; "🚄"].

(** The dict [category_keywords], in insertion order. *)
Definition category_keywords : list (string * list string) :=
  [ ("Food", ["food"; "meal"; "lunch"; "dinner"; "breakfast"; "restaurant"; "eat"; "coffee"; "tea"; "cafe"]);
    ("Groceries", ["grocery"; "groceries"; "supermarket"; "fruit"; "vegetable"]);
    ("Transport", ["uber"; "ola"; "taxi"; "auto"; "transport"; "travel"; "bus"; "train"; "metro"]);
    ("Vehicle", ["car"; "bike"; "cycle"; "repair"; "service"; "motor"; "fuel"; "petrol"; "diesel"]);
    ("Bills", ["bill"; "recharge"; "subscription"; "electricity"; "water"; "internet"; "phone bill"]);
    ("Health", ["medicine"; "doctor"; "hospital"; "medical"; "health"; "clinic"; "dentist"]);
    ("Fashion", ["clothes"; "dress"; "shirt"; "pant"; "shoe"; "footwear"; "apparel"; "fashion"]);
    ("Electronics", ["phone"; "mobile"; "laptop"; "computer"; "gadget"; "electronics"; "device"]);
    ("Entertainment", ["movie"; "game"; "show"; "concert"; "entertainment"; "theatre"; "amusement"]);
    ("Education", ["book"; "course"; "class"; "tuition"; "school"; "college"; "education"]) ].

Fixpoint first_category (table : list (string * list string)) (text_lower : string)
  : option string :=
  match table with
  | [] => None
  | (category, keywords) :: table' =>
      if contains_any keywords text_lower then Some category
      else first_category table' text_lower
  end.

Definition determine_fallback_category (text : string) : string :=
  let text_lower := lower text in
  if contains_any electronics_emojis text then "Electronics"
  else if contains_any food_emojis text then "Food"
  else if contains_any transport_emojis text then "Transport"
  else default "Miscellaneous" (first_category category_keywords text_lower).

Definition fallback_messages : list (string * string) :=
  [ ("Electronics", "New gadget! 📱 Your electronics purchase has been logged. Enjoy your new device!");
    ("Bills", "Payment noted! 🧾 I've recorded your bill payment. Keeping your expenses organized!");
    ("Food", "Yum! 🍔 I've added your food expense to your tracker. Bon appétit!");
    ("Transport", "On the move! 🚗 I've logged your transport expense. Safe travels!");
    ("Miscellaneous", "Got it! 💰 Your expense has been recorded. Thanks for keeping track!") ].

Fixpoint messages_get (category : string) (table : list (string * string)) : option string :=
  match table with
  | [] => None
  | (k, v) :: table' => if String.eqb category k then Some v else messages_get category table'
  end.

Definition generate_fallback_message (category : string) : string :=
  default "Added to expenses! 💰" (messages_get category fallback_messages).

(** The dict [{'amount': ..., 'category': ..., 'message': ...}]. *)
Record analysis : Type := {
  a_amount : string;
  a_category : string;
  a_message : json
}.

Definition with_amount (r : analysis) (amount : string) : analysis :=
  {| a_amount := amount; a_category := a_category r; a_message := a_message r |}.

(** [if amount:] for what [extract_inr_amount] returns *)
Definition amount_truthy (amount : option float) : bool :=
  match amount with
  | Some x => float_truthy x
  | None => false
  end.

Definition format_amount (amount : option float) : string :=
  match amount with
  | Some x => format_inr (JFloat x)
  | None => format_inr JNull
  end.

Definition fallback_analysis (prompt : string) : analysis :=
  let amount := extract_inr_amount prompt in
  let category := determine_fallback_category prompt in
  {| a_amount := if amount_truthy amount then format_amount amount else "???";
     a_category := category;
     a_message := JStr (generate_fallback_message category) |}.

(** ** The classifier adapter *)

(** [re.search(r'\{.*\}', text, re.DOTALL)]: from the leftmost opening brace
    to the last closing brace after it. *)
Fixpoint search_json_span (s : string) : option string :=
  match s with
  | EmptyString => None
  | String c s' =>
      if Ascii.eqb c "{"%char then
        match last_index_of "}"%char s' with
        | Some i => Some (String c (str_take (S i) s'))
        | None => search_json_span s'
        end
      else search_json_span s'
  end.

(** [amount.replace(',', '').isdigit()] *)
Definition isdigit (s : string) : bool :=
  negb (is_empty s) && all_chars is_digit s.

Definition parse_gemini_response (response_text original_prompt : string) : analysis :=
  try_except
    (match search_json_span response_text with
     | None => Ok (fallback_analysis original_prompt)
     | Some json_str =>
         data ← of_option (json_loads json_str);
         match data with
         | JObj data =>
             match dict_get "amount" data, dict_get "category" data with
             | Some amount, Some category =>
                 amount ← match amount with
                          | JStr s =>
                              if isdigit (remove_char ","%char s)
                              then JFloat <$> of_option (float_of_str (remove_char ","%char s))
                              else Ok amount
                          | _ => Ok amount
                          end;
                 let amount := format_inr amount in
                 category ← match category with
                            | JStr c => Ok (title c)
                            | _ => Raise (* AttributeError: no [title] *)
                            end;
                 Ok {| a_amount := amount;
                       a_category := category;
                       a_message := default (JStr "Added to expenses! 💰")
                                      (dict_get "message" data) |}
             | _, _ => Ok (fallback_analysis original_prompt)
             end
         | _ =>
             (* not a dict: the membership tests report a missing field or
                raise, and [data.get] raises *)
             Ok (fallback_analysis original_prompt)
         end
     end)
    (fallback_analysis original_prompt).

Definition analyze_expense (prompt : string) (o : api_outcome) : analysis :=
  try_except
    (response_text ← response_text o;
     let parsed_result := parse_gemini_response response_text prompt in
     let manual :=
       (* Try manual extraction as fallback *)
       let amount := extract_inr_amount prompt in
       if amount_truthy amount then with_amount parsed_result (format_amount amount)
       else parsed_result in
     Ok (if negb (is_empty (a_amount parsed_result))
            && negb (String.eqb (a_amount parsed_result) "???")
         then
           match float_of_str (a_amount parsed_result) with
           | Some amount => if float_le0 amount then manual else parsed_result
           | None => manual (* bare except *)
           end
         else parsed_result))
    (fallback_analysis prompt).

(** ** Intent predicates *)

Definition show_variants : list string := ["show"; "shwo"; "shoq"; "sho"; "sbow"].

Definition other_direct_queries : list string :=
  ["my expenses"; "what did i spend"; "how much did i spend"; "total expenses";
   "expense report"; "spending summary"].

Definition query_keywords : list string :=
  ["show"; "shwo"; "list"; "display"; "tell me"; "what"; "how much"; "total";
   "summary"; "report"; "analysis"; "breakdown"].

Definition expense_terms : list string :=
  ["expense"; "spent"; "spend"; "cost"; "payment"].

Definition is_expense_query (text : string) : bool :=
  let text_lower := lower text in
  existsb
    (fun show_variant =>
       contains_any [show_variant +:+ " my expenses";
                     show_variant +:+ " expenses";
                     show_variant +:+ " my transactions"] text_lower)
    show_variants
  || contains_any other_direct_queries text_lower
  || (contains_any query_keywords text_lower && contains_any expense_terms text_lower).

Definition deletion_keywords : list string :=
  ["delete"; "remove"; "erase"; "clear"; "clean"; "wipe"; "purge"].

Definition target_phrases : list string :=
  ["expense"; "expenses"; "history"; "data"; "records"; "transactions"].

Definition is_deletion_request (text : string) : bool :=
  let text_lower := lower text in
  contains_any deletion_keywords text_lower && contains_any target_phrases text_lower.

(** [re.search(r'(?:show|display|list|my expenses|total)', text.lower())] *)
Definition mentions_listing (text : string) : bool :=
  contains_any ["show"; "display"; "list"; "my expenses"; "total"] (lower text).

(** ** Scope extraction *)

(** A Python dict with string keys. *)
Abbreviation pydict := (gmap string json).

(** [d.get(k)] and [d.get(k, default)] *)
Definition py_get (d : pydict) (k : string) : json := default JNull (d !! k).
Definition py_get_default (d : pydict) (k : string) (dflt : json) : json :=
  default dflt (d !! k).

(** [data.get(k)] and [data.get(k, default)] on a decoded object *)
Definition obj_get (data : list (string * json)) (k : string) : json :=
  default JNull (dict_get k data).
Definition obj_get_default (data : list (string * json)) (k : string) (dflt : json) : json :=
  default dflt (dict_get k data).

Definition is_none (v : json) : bool :=
  match v with JNull => true | _ => false end.

(** The [try] body shared by the two extractors up to [json.loads]: [Ok None]
    when the response holds no brace span. *)
Definition extracted_object (o : api_outcome) : result (option (list (string * json))) :=
  response_text ← response_text o;
  match search_json_span response_text with
  | Some json_str =>
      data ← of_option (json_loads json_str);
      match data with
      | JObj data => Ok (Some data)
      | _ => Raise (* AttributeError: no [get] *)
      end
  | None => Ok None
  end.

Definition extract_time_range_from_query (query : string) (o : api_outcome) : pydict :=
  let fallback : pydict :=
    <["days" := JInt 30]> (<["description" := JStr "recent expenses"]>
      (<["limit" := JNull]> ∅)) in
  match extracted_object o with
  | Ok (Some time_range) =>
      <["days" := obj_get_default time_range "days" (JInt 30)]>
        (<["description" := obj_get_default time_range "description" (JStr "recent expenses")]>
           (<["limit" := obj_get_default time_range "limit" JNull]> ∅))
  | _ => fallback
  end.

Definition extract_deletion_time_range (text : string) (o : api_outcome) : pydict :=
  let fallback : pydict :=
    <["days" := JNull]> (<["description" := JStr "all expenses"]>
      (<["count" := JNull]> (<["position" := JNull]> ∅))) in
  match extracted_object o with
  | Ok (Some time_range) =>
      <["days" := obj_get time_range "days"]>
        (<["description" := obj_get_default time_range "description" (JStr "specified expenses")]>
           (<["count" := obj_get time_range "count"]>
              (<["position" := obj_get time_range "position"]> ∅)))
  | _ => fallback
  end.

(** ** The store, the session dict and the outbox *)

(** The two shapes of item the handler writes to the table; the key of the
    map is the attribute [message_id]. *)
Inductive item : Type :=
  | Marker (processed_at : string)
  | Expense (username timestamp : string) (amount : float)
            (category description : string).

(** A table row as a scan returns it. *)
Definition row : Type := string * item.

Definition row_id (r : row) : string := r.1.

Definition row_timestamp (r : row) : string :=
  match r.2 with
  | Expense _ ts _ _ _ => ts
  | Marker _ => EmptyString
  end.

Definition row_amounts (rows : list row) : list float :=
  omap (fun r : row => match r.2 with
                       | Expense _ _ a _ _ => Some a
                       | Marker _ => None
                       end) rows.

(** An entry of [deletion_confirmations]. *)
Record session : Type := {
  confirmation_code : string;
  s_time_range : pydict;
  expenses_to_delete : list string;
  s_chat_id : Z;
  expense_count : nat;
  expires_at : Z
}.

(** The text handed to [send_telegram_reply]: fixed texts verbatim, formatted
    ones as the values that are interpolated. *)
Inductive reply_text : Type :=
  | Plain (text : string)
  | HelpfulMessage
  | ExpenseMarked (amount : float) (category : string) (message : json)
  | ExpenseSummary (expenses : list row) (time_range : pydict)
  | DeletionPrompt (expense_count : nat) (description : json)
                   (amounts : list float) (confirmation_code : string)
  | DeletionDone (deleted_count : nat) (description : json).

Record reply : Type := {
  r_chat_id : Z;
  r_reply_to : string;
  r_text : reply_text
}.

Record world : Type := {
  table : gmap string item;
  deletion_confirmations : gmap string session;
  outbox : list reply
}.

Definition with_table (w : world) (t : gmap string item) : world :=
  {| table := t;
     deletion_confirmations := deletion_confirmations w;
     outbox := outbox w |}.

Definition with_confirmations (w : world) (d : gmap string session) : world :=
  {| table := table w;
     deletion_confirmations := d;
     outbox := outbox w |}.

Definition initial_world : world :=
  {| table := ∅; deletion_confirmations := ∅; outbox := [] |}.

(** What the outside world answers during one invocation. *)
Record env : Type := {
  (** the DynamoDB calls that succeed *)
  get_item_ok : bool;
  put_marker_ok : bool;
  put_expense_ok : bool;
  scan_ok : bool;
  (** the index of the first [delete_item] call that raises, if any *)
  delete_fails_at : option nat;
  (** [datetime.utcnow().isoformat()] *)
  utcnow : string;
  (** [(datetime.utcnow() - timedelta(days=d)).isoformat()] *)
  days_ago : json -> option string;
  (** [time.time()] *)
  time_now : Z;
  (** [str(uuid.uuid4())] *)
  uuid4 : string;
  (** the classifier call of this invocation *)
  classifier : api_outcome
}.

Definition send_telegram_reply (chat_id : Z) (message_id : string)
    (text : reply_text) (w : world) : world :=
  {| table := table w;
     deletion_confirmations := deletion_confirmations w;
     outbox := outbox w ++ [{| r_chat_id := chat_id; r_reply_to := message_id; r_text := text |}] |}.

(** ** Idempotency guard *)

Definition marker_key (message_id : string) : string := "MSG#" +:+ message_id.

Definition check_if_processed (e : env) (message_id : string) (w : world) : bool :=
  if get_item_ok e then bool_decide (is_Some (table w !! marker_key message_id))
  else false (* Return False to avoid skipping transactions incorrectly *).

Definition mark_as_processed (e : env) (message_id : string) (w : world) : world :=
  if put_marker_ok e
  then with_table w (<[marker_key message_id := Marker (utcnow e)]> (table w))
  else w.

(** ** Expense store gateway *)

Definition store_user_expense (e : env) (username : string) (a : analysis)
    (original_text : string) (w : world) : world :=
  match float_of_str (remove_char ","%char (a_amount a)) with
  | Some amount =>
      if float_le0 amount then w
      else
        let timestamp := utcnow e in
        let expense_id := "EXP#" +:+ username +:+ "#" +:+ timestamp in
        if put_expense_ok e
        then with_table w
               (<[expense_id := Expense username timestamp amount (a_category a) original_text]>
                  (table w))
        else w
  | None => w (* ValueError *)
  end.

Definition is_expense_of (username : string) (r : row) : bool :=
  match r.2 with
  | Expense u _ _ _ _ => String.eqb u username
  | Marker _ => false
  end.

(** [dynamodb.scan] with a filter; the rows come in the enumeration order of
    the map. *)
Definition scan (filter_expression : row -> bool) (t : gmap string item) : list row :=
  List.filter filter_expression (map_to_list t).

Definition get_all_user_expenses (e : env) (username : string) (w : world) : list row :=
  if scan_ok e then scan (is_expense_of username) (table w) else [].

Definition get_user_expenses_for_deletion (e : env) (username start_time : string)
    (w : world) : list row :=
  if scan_ok e
  then scan (fun r => is_expense_of username r && String.leb start_time (row_timestamp r))
         (table w)
  else [].

Definition positive_amount (r : row) : bool :=
  match r.2 with
  | Expense _ _ a _ _ => float_gt0 a
  | Marker _ => false
  end.

(** The log line after the scan reads [time_range['description']] inside the
    [try]: without that key the rows found are dropped. *)
Definition get_user_expenses (e : env) (username : string) (time_range : pydict)
    (w : world) : list row :=
  match days_ago e (py_get_default time_range "days" (JInt 7)) with
  | Some start_time =>
      if scan_ok e
      then
        let items :=
          scan (fun r => is_expense_of username r
                         && String.leb start_time (row_timestamp r)
                         && positive_amount r) (table w) in
        match time_range !! "description" with
        | Some _ => items
        | None => [] (* KeyError *)
        end
      else []
  | None => []
  end.

(** [delete_specific_expenses]: one [delete_item] per id, in order; the count
    of calls made, or the exception re-raised, and the table either way. *)
Fixpoint delete_specific_expenses (fails_at : option nat) (expense_ids : list string)
    (t : gmap string item) : result nat * gmap string item :=
  match expense_ids with
  | [] => (Ok 0, t)
  | message_id :: rest =>
      match fails_at with
      | Some 0 => (Raise, t)
      | _ =>
          let '(r, t') := delete_specific_expenses (pred <$> fails_at) rest (delete message_id t) in
          (S <$> r, t')
      end
  end.

(** ** Deletion confirmation state machine *)

(** [sorted(l, key=...)]: a stable sort, here by insertion.  [le x y] says
    that [x] may stand before [y]. *)
Fixpoint insert_by {A} (le : A -> A -> bool) (x : A) (l : list A) : list A :=
  match l with
  | [] => [x]
  | y :: l' => if le x y then x :: l else y :: insert_by le x l'
  end.

Definition sorted_by {A} (le : A -> A -> bool) (l : list A) : list A :=
  foldr (insert_by le) [] l.

(** [key=timestamp, reverse=False] and [reverse=True] *)
Definition oldest_first (a b : row) : bool :=
  String.leb (row_timestamp a) (row_timestamp b).
Definition newest_first (a b : row) : bool :=
  String.leb (row_timestamp b) (row_timestamp a).

(** [l[:k]] *)
Definition slice_to {A} (k : Z) (l : list A) : list A :=
  if (0 <=? k)%Z then take (Z.to_nat k) l
  else take (Z.to_nat (Z.of_nat (length l) + k)) l.

(** [l[:min(count, len(l))]]: [min] returns [len(l)] when it is smaller and
    [count] otherwise; a slice bound that is a [float] raises, and so does
    comparing an [int] with a [str], a list or a dict. *)
Definition first_count {A} (count : json) (l : list A) : result (list A) :=
  let n := Z.of_nat (length l) in
  match count with
  | JInt c => Ok (slice_to (if (n <? c)%Z then n else c) l)
  | JBool b =>
      let c := (if b then 1 else 0)%Z in
      Ok (slice_to (if (n <? c)%Z then n else c) l)
  | JFloat x => if int_lt_float n x then Ok (slice_to n l) else Raise
  | _ => Raise
  end.

Definition is_last (position : json) : bool :=
  match position with
  | JStr p => String.eqb p "last"
  | _ => false
  end.

(** The candidate records of a deletion request. *)
Definition deletion_candidates (e : env) (username : string) (time_range : pydict)
    (w : world) : result (list row) :=
  if negb (is_none (py_get time_range "count")) then
    let all_expenses := get_all_user_expenses e username w in
    (* Default to "last" if not specified *)
    let position := py_get_default time_range "position" (JStr "last") in
    let sorted_expenses :=
      if is_last position then sorted_by newest_first all_expenses
      else sorted_by oldest_first all_expenses in
    count ← of_option (time_range !! "count");
    first_count count sorted_expenses
  else if negb (is_none (py_get time_range "days")) then
    days ← of_option (time_range !! "days");
    start_time ← of_option (days_ago e days);
    Ok (get_user_expenses_for_deletion e username start_time w)
  else Ok (get_all_user_expenses e username w).

Definition handle_deletion_request (e : env) (chat_id : Z) (message_id username : string)
    (time_range : pydict) (w : world) : world :=
  let failed :=
    Plain "I encountered an error processing your deletion request. Please try again." in
  match deletion_candidates e username time_range w with
  | Raise => send_telegram_reply chat_id message_id failed w
  | Ok expenses =>
      let expense_count := length expenses in
      if bool_decide (expense_count = 0) then
        send_telegram_reply chat_id message_id
          (Plain "You don't have any expenses to delete.") w
      else
        let confirmation_code := str_take 8 (uuid4 e) in
        let w :=
          with_confirmations w
            (<[username := {| confirmation_code := confirmation_code;
                              s_time_range := time_range;
                              expenses_to_delete := row_id <$> expenses;
                              s_chat_id := chat_id;
                              expense_count := expense_count;
                              expires_at := time_now e + 300 |}]>
               (deletion_confirmations w)) in
        match time_range !! "description" with
        | Some description =>
            send_telegram_reply chat_id message_id
              (DeletionPrompt expense_count description (row_amounts expenses)
                 confirmation_code) w
        | None => send_telegram_reply chat_id message_id failed w (* KeyError *)
        end
  end.

(** [re.match(r'confirm\s+(\w+)', text_lower)]: group 1.  A whitespace
    character is no word character, so giving back whitespace never helps the
    match. *)
Definition match_confirm (text_lower : string) : option string :=
  match match_literal "confirm" text_lower with
  | Some r =>
      let '(ws, r') := span is_space r in
      if is_empty ws then None
      else
        let '(code, _) := span is_word r' in
        if is_empty code then None else Some code
  | None => None
  end.

Definition is_deletion_confirmation (e : env) (username text : string) (w : world)
  : bool * world :=
  match deletion_confirmations w !! username with
  | None => (false, w)
  | Some confirmation_data =>
      if (expires_at confirmation_data <? time_now e)%Z then
        (* Remove expired confirmation *)
        (false, with_confirmations w (delete username (deletion_confirmations w)))
      else
        let text_lower := lower text in
        if String.eqb text_lower "cancel" then
          (true, with_confirmations w (delete username (deletion_confirmations w)))
        else
          match match_confirm text_lower with
          | Some code =>
              (String.eqb code (confirmation_code confirmation_data), w)
          | None => (false, w)
          end
  end.

(** Every session holds the key [expenses_to_delete], so of the three ways to
    delete only [delete_specific_expenses] is ever taken. *)
Definition handle_deletion_confirmation (e : env) (chat_id : Z)
    (message_id username text : string) (w : world) : world :=
  match deletion_confirmations w !! username with
  | None =>
      send_telegram_reply chat_id message_id
        (Plain "I don't have any pending deletion requests for you.") w
  | Some confirmation_data =>
      let text_lower := lower text in
      if String.eqb text_lower "cancel" then
        send_telegram_reply chat_id message_id
          (Plain "Expense deletion cancelled. Your data remains intact.")
          (with_confirmations w (delete username (deletion_confirmations w)))
      else
        let failed :=
          Plain "I encountered an error while deleting your expenses. Please try again." in
        let time_range := s_time_range confirmation_data in
        let '(deleted, t) :=
          delete_specific_expenses (delete_fails_at e)
            (expenses_to_delete confirmation_data) (table w) in
        let w := with_table w t in
        match deleted with
        | Raise => send_telegram_reply chat_id message_id failed w
        | Ok deleted_count =>
            let w := with_confirmations w (delete username (deletion_confirmations w)) in
            match time_range !! "description" with
            | Some description =>
                send_telegram_reply chat_id message_id
                  (DeletionDone deleted_count description) w
            | None => send_telegram_reply chat_id message_id failed w (* KeyError *)
            end
        end
  end.

(** ** Webhook orchestrator *)

(** The fields [lambda_handler] reads from [body["message"]]; [None] is a
    missing field. *)
Record message : Type := {
  m_chat_id : option Z;
  m_username : option string;
  m_text : option string;
  m_message_id : option Z
}.

(** An event whose body cannot be decoded or walked raises inside the handler. *)
Inductive event : Type :=
  | Malformed
  | Update (m : message).

Record response : Type := {
  statusCode : Z;
  body : string
}.

(** [str(v)] for an optional [int] *)
Definition str_of_int (v : option Z) : string :=
  match v with
  | Some n => pretty n
  | None => "None"
  end.

(** The lane for a message that is neither confirmation, deletion request nor
    query: an expense entry or the help text. *)
Definition handle_entry (e : env) (chat_id : Z) (message_id username text : string)
    (w : world) : response * world :=
  let instructions :=
    ({| statusCode := 200; body := "Instructions sent" |},
     send_telegram_reply chat_id message_id HelpfulMessage w) in
  if negb (mentions_listing text) then
    let a := analyze_expense text (classifier e) in
    if negb (is_empty (a_amount a)) && negb (String.eqb (a_amount a) "???") then
      match float_of_str (strip (remove_char ","%char (a_amount a))) with
      | Some amount =>
          if float_gt0 amount then
            let w := store_user_expense e username a text w in
            ({| statusCode := 200; body := "Expense processed" |},
             send_telegram_reply chat_id message_id
               (ExpenseMarked amount (a_category a) (a_message a)) w)
          else instructions
      | None => instructions (* ValueError *)
      end
    else instructions
  else instructions.

(** The body of [lambda_handler] after the message is marked: the ordered
    routing of the text. *)
Definition route (e : env) (chat_id : Z) (message_id username text : string)
    (w : world) : response * world :=
  let '(confirmation, w) := is_deletion_confirmation e username text w in
  if confirmation then
    ({| statusCode := 200; body := "Deletion confirmation processed" |},
     handle_deletion_confirmation e chat_id message_id username text w)
  else if is_deletion_request text then
    let time_range := extract_deletion_time_range text (classifier e) in
    ({| statusCode := 200; body := "Deletion request processed" |},
     handle_deletion_request e chat_id message_id username time_range w)
  else if is_expense_query text then
    let time_range := extract_time_range_from_query text (classifier e) in
    let expenses := get_user_expenses e username time_range w in
    ({| statusCode := 200; body := "Expense query processed" |},
     send_telegram_reply chat_id message_id (ExpenseSummary expenses time_range) w)
  else handle_entry e chat_id message_id username text w.

(** [username], [text] and [message_id] as the handler derives them. *)
Definition username_of (m : message) : string :=
  default (str_of_int (m_chat_id m)) (m_username m).
Definition text_of (m : message) : string :=
  strip (default EmptyString (m_text m)).
Definition message_id_of (m : message) : string := str_of_int (m_message_id m).

Definition lambda_handler (e : env) (ev : event) (w : world) : response * world :=
  match ev with
  | Malformed => ({| statusCode := 500; body := "Internal Server Error" |}, w)
  | Update m =>
      let username := username_of m in
      let text := text_of m in
      let message_id := message_id_of m in
      let invalid := ({| statusCode := 400; body := "Invalid request" |}, w) in
      match m_chat_id m with
      | None => invalid
      | Some chat_id =>
          if (chat_id =? 0)%Z || is_empty text then invalid
          else if check_if_processed e message_id w then
            ({| statusCode := 200; body := "Already processed" |}, w)
          else
            route e chat_id message_id username text (mark_as_processed e message_id w)
      end
  end.

(** The message passes [if not chat_id or not text]. *)
Definition accepted (m : message) : bool :=
  match m_chat_id m with
  | Some chat_id => negb ((chat_id =? 0)%Z || is_empty (text_of m))
  | None => false
  end.

(** The states the handler reaches from the empty table and session dict. *)
Inductive reachable_from (w0 : world) : world -> Prop :=
  | reach_here : reachable_from w0 w0
  | reach_step e ev w :
      reachable_from w0 w -> reachable_from w0 (lambda_handler e ev w).2.

Definition reachable (w : world) : Prop := reachable_from initial_world w.

(** ** Invariants of the store *)

(** Keys of expense records start with [EXP#], marker keys with [MSG#]. *)
Definition expense_key (k : string) : bool := startswith "EXP#" k.

(** An expense record sits under an expense key and its amount is positive:
    it satisfies [amount > 0] and fails [amount <= 0]. *)
Definition item_ok (k : string) (it : item) : Prop :=
  match it with
  | Marker _ => True
  | Expense _ _ a _ _ =>
      expense_key k = true /\ float_gt0 a = true /\ float_le0 a = false
  end.

Definition table_ok (t : gmap string item) : Prop :=
  forall k it, t !! k = Some it -> item_ok k it.

(** A session snapshot holds expense keys only. *)
Definition sessions_ok (d : gmap string session) : Prop :=
  forall u s id, d !! u = Some s -> id ∈ expenses_to_delete s -> expense_key id = true.

Definition invariant (w : world) : Prop :=
  table_ok (table w) /\ sessions_ok (deletion_confirmations w).

(** ** Functions of [final.py] outside the handler's path *)

(** [delete_user_expenses] and [delete_all_user_expenses]: a scan, then the
    loop of [delete_specific_expenses] over the ids of the rows found; the
    count, or the exception re-raised, and the world either way. *)
Definition delete_user_expenses (e : env) (username start_time : string) (w : world)
  : result nat * world :=
  let expenses := get_user_expenses_for_deletion e username start_time w in
  let '(deleted_count, t) :=
    delete_specific_expenses (delete_fails_at e) (row_id <$> expenses) (table w) in
  (deleted_count, with_table w t).

Definition delete_all_user_expenses (e : env) (username : string) (w : world)
  : result nat * world :=
  let expenses := get_all_user_expenses e username w in
  let '(deleted_count, t) :=
    delete_specific_expenses (delete_fails_at e) (row_id <$> expenses) (table w) in
  (deleted_count, with_table w t).

(** ** Predicates used in the statements *)


(** The labels [determine_fallback_category] can return. *)
Definition fallback_categories : list string :=
  ["Electronics"; "Food"; "Transport"; "Groceries"; "Vehicle"; "Bills"; "Health";
   "Fashion"; "Entertainment"; "Education"; "Miscellaneous"].

(** An expense record sits under the key made of its own user and timestamp,
    a marker under a marker key. *)
Definition item_keyed (k : string) (it : item) : Prop :=
  match it with
  | Marker _ => exists message_id, k = marker_key message_id
  | Expense username timestamp _ _ _ =>
      k = "EXP#" +:+ username +:+ "#" +:+ timestamp
  end.


End Analysis.

(** ** An exact decimal instance of [PyFloat]

    A value is [mantissa / 10 ^ scale].  It reads the plain decimal literals,
    with sign and surrounding whitespace, and computes without rounding; it
    agrees with binary64 wherever binary64 is exact. *)

Module Dec.

Record dec : Type := Decimal { mantissa : Z; scale : nat }.

Definition pow10 (n : nat) : Z := (10 ^ Z.of_nat n)%Z.

Definition digit_value (c : ascii) : Z := (Z.of_N (code c) - 48)%Z.

Fixpoint digits_value (acc : Z) (s : string) : Z :=
  match s with
  | EmptyString => acc
  | String c s' => digits_value (acc * 10 + digit_value c)%Z s'
  end.

Definition of_str (s : string) : option dec :=
  let s := strip s in
  let '(sign, r) :=
    match s with
    | String c r =>
        if Ascii.eqb c "-"%char then ((-1)%Z, r)
        else if Ascii.eqb c "+"%char then (1%Z, r)
        else (1%Z, s)
    | EmptyString => (1%Z, s)
    end in
  let '(ip, r1) := span is_digit r in
  let '(fp, r2) :=
    match r1 with
    | String c r1' => if Ascii.eqb c "."%char then span is_digit r1' else (EmptyString, r1)
    | EmptyString => (EmptyString, r1)
    end in
  if is_empty r2 && negb (is_empty ip && is_empty fp)
  then Some (Decimal (sign * digits_value 0 (ip +:+ fp)) (String.length fp))
  else None.

Definition of_int (n : Z) : option dec := Some (Decimal n 0).

Definition mul_int (x : dec) (n : Z) : dec := Decimal (mantissa x * n) (scale x).

Definition truthy (x : dec) : bool := negb (mantissa x =? 0)%Z.
Definition gt0 (x : dec) : bool := (0 <? mantissa x)%Z.
Definition le0 (x : dec) : bool := (mantissa x <=? 0)%Z.
Definition int_lt (n : Z) (x : dec) : bool := (n * pow10 (scale x) <? mantissa x)%Z.

(** Round [num / den] to the nearest integer, ties to even. *)
Definition round_half_even (num den : Z) : Z :=
  let q := (num / den)%Z in
  let r := (num mod den)%Z in
  if (2 * r <? den)%Z then q
  else if (den <? 2 * r)%Z then (q + 1)%Z
  else if Z.even q then q else (q + 1)%Z.

(** The value times [10 ^ k], rounded to an integer. *)
Definition scaled (x : dec) (k : nat) : Z :=
  if (scale x <=? k)%nat then (mantissa x * pow10 (k - scale x))%Z
  else round_half_even (mantissa x) (pow10 (scale x - k)).

(** Thousands separators, working from the last digit. *)
Fixpoint commas (in_group : nat) (rev_digits : string) : string :=
  match rev_digits with
  | EmptyString => EmptyString
  | String c r =>
      if (in_group =? 3)%nat then String ","%char (String c (commas 1 r))
      else String c (commas (S in_group) r)
  end.

Definition grouped (n : Z) : string := String.rev (commas 0 (String.rev (pretty n))).

Definition sign_text (n : Z) : string := if (n <? 0)%Z then "-" else EmptyString.

Fixpoint pad_left (width : nat) (s : string) : string :=
  if (width <=? String.length s)%nat then s
  else match width with
       | O => s
       | S w => String "0"%char (pad_left w s)
       end.

Definition fmt_2f (x : dec) : string :=
  let c := scaled x 2 in
  sign_text c +:+ grouped (Z.abs c / 100) +:+ "." +:+ pad_left 2 (pretty (Z.abs c mod 100)%Z).

Definition fmt_0f (x : dec) : string :=
  let c := scaled x 0 in
  sign_text c +:+ grouped (Z.abs c).

(** [str(x)] in positional notation, the one Python uses for magnitudes from
    [1e-4] up to [1e16]; beyond, the text has an exponent, written here
    without a dot. *)
Definition to_str (x : dec) : string :=
  let a := Z.abs (mantissa x) in
  let p := pow10 (scale x) in
  if (a =? 0)%Z || ((p <=? a * 10000)%Z && (a <? p * pow10 16)%Z) then
    let frac :=
      rstrip_with (Ascii.eqb "0"%char) (pad_left (scale x) (pretty (a mod p)%Z)) in
    sign_text (mantissa x) +:+ pretty (a / p)%Z +:+ "."
      +:+ (if is_empty frac then "0" else frac)
  else sign_text (mantissa x) +:+ pretty a +:+ "e" +:+ pretty (- Z.of_nat (scale x))%Z.

End Dec.

#[export] Instance DecFloat : PyFloat := {|
  float := Dec.dec;
  float_of_str := Dec.of_str;
  float_of_int := Dec.of_int;
  float_mul_int := Dec.mul_int;
  float_truthy := Dec.truthy;
  float_gt0 := Dec.gt0;
  float_le0 := Dec.le0;
  int_lt_float := Dec.int_lt;
  str_of_float := Dec.to_str;
  format_2f := Dec.fmt_2f;
  format_0f := Dec.fmt_0f
|}.

(** ** Sample classifier documents

    A decoder for the few JSON documents used in the examples. *)

Module Samples.

Definition dq : string := String (ascii_of_nat 34) EmptyString.
Definition quoted (s : string) : string := dq +:+ s +:+ dq.
Definition member (k v : string) : string := quoted k +:+ ": " +:+ v.

(** An expense analysis with all three fields. *)
Definition doc_expense : string :=
  "{" +:+ member "amount" "250" +:+ ", " +:+ member "category" (quoted "food")
      +:+ ", " +:+ member "message" (quoted "Noted!") +:+ "}".

(** An expense analysis without a category. *)
Definition doc_no_category : string :=
  "{" +:+ member "amount" "250" +:+ "}".

(** A deletion scope with a count and no position. *)
Definition doc_count_only : string :=
  "{" +:+ member "days" "null" +:+ ", "
      +:+ member "description" (quoted "1 expense") +:+ ", "
      +:+ member "count" "1" +:+ "}".

(** The deletion scope of the prompt's example "delete first 2 expenses". *)
Definition doc_first_two : string :=
  "{" +:+ member "days" "null" +:+ ", "
      +:+ member "description" (quoted "first 2 expenses") +:+ ", "
      +:+ member "count" "2" +:+ ", "
      +:+ member "position" (quoted "first") +:+ "}".

Definition documents : list (string * json) :=
  [ (doc_expense,
     JObj [("amount", JInt 250); ("category", JStr "food"); ("message", JStr "Noted!")]);
    (doc_no_category, JObj [("amount", JInt 250)]);
    (doc_count_only,
     JObj [("days", JNull); ("description", JStr "1 expense"); ("count", JInt 1)]);
    (doc_first_two,
     JObj [("days", JNull); ("description", JStr "first 2 expenses");
           ("count", JInt 2); ("position", JStr "first")]) ].

Fixpoint decode (s : string) (docs : list (string * json)) : option json :=
  match docs with
  | [] => None
  | (text, v) :: docs' => if String.eqb s text then Some v else decode s docs'
  end.

End Samples.

#[export] Instance SampleJson : JsonLoads (PF := DecFloat) := {|
  json_loads := fun s => Samples.decode s Samples.documents
|}.

(** ** Sample runs

    Concrete environments, messages and tables for the examples, over the
    decimal instance. *)

Module Scenario.

#[local] Existing Instance DecFloat.
#[local] Existing Instance SampleJson.

(** An invocation during which every call to the store succeeds and the
    classifier is unreachable. *)
Definition quiet (now_iso : string) (now : Z) : env :=
  {| get_item_ok := true;
     put_marker_ok := true;
     put_expense_ok := true;
     scan_ok := true;
     delete_fails_at := None;
     utcnow := now_iso;
     days_ago := fun _ => None;
     time_now := now;
     uuid4 := "3f2a9c1e-7b54-4d6a-9e0f-5c8d1a2b3c4d";
     classifier := NetworkError |}.

Definition answering (o : api_outcome) (e : env) : env :=
  {| get_item_ok := get_item_ok e;
     put_marker_ok := put_marker_ok e;
     put_expense_ok := put_expense_ok e;
     scan_ok := scan_ok e;
     delete_fails_at := delete_fails_at e;
     utcnow := utcnow e;
     days_ago := days_ago e;
     time_now := time_now e;
     uuid4 := uuid4 e;
     classifier := o |}.

Definition from_alice (text : string) (message_id : option Z) : message :=
  {| m_chat_id := Some 42%Z;
     m_username := Some "alice";
     m_text := Some text;
     m_message_id := message_id |}.

Definition from_bob (text : string) (message_id : option Z) : message :=
  {| m_chat_id := Some 77%Z;
     m_username := Some "bob";
     m_text := Some text;
     m_message_id := message_id |}.

Definition run (e : env) (m : message) (w : world) : world :=
  (lambda_handler e (Update m) w).2.

(** Alice records three expenses, one a day. *)
Definition three_expenses : world :=
  run (quiet "2024-05-03T09:00:00" 3000) (from_alice "taxi 300" (Some 3%Z))
    (run (quiet "2024-05-02T09:00:00" 2000) (from_alice "paid 1200 for groceries" (Some 2%Z))
       (run (quiet "2024-05-01T09:00:00" 1000) (from_alice "spent 500 on dinner" (Some 1%Z))
          initial_world)).

Definition scope_first_two : gmap string json :=
  extract_deletion_time_range "delete first 2 expenses"
    (ResponseText ("Here you go: " +:+ Samples.doc_first_two)).

Definition scope_count_only : gmap string json :=
  extract_deletion_time_range "delete 1 expense"
    (ResponseText Samples.doc_count_only).

(** Alice asks to delete her first two expenses; the prompt is sent. *)
Definition pending_first_two : world :=
  run (answering (ResponseText ("Here you go: " +:+ Samples.doc_first_two))
         (quiet "2024-05-04T09:00:00" 4000))
    (from_alice "delete first 2 expenses" (Some 4%Z)) three_expenses.

(** While the prompt is pending she records one more expense. *)
Definition pending_and_one_more : world :=
  run (quiet "2024-05-04T09:01:00" 4060) (from_alice "coffee 80" (Some 5%Z))
    pending_first_two.

End Scenario.

(** More classifier answers for the examples: an amount of four digits and an
    amount that is [null]. *)
Module MoreSamples.

Definition doc_large_amount : string :=
  "{" +:+ Samples.member "amount" "1200" +:+ ", "
      +:+ Samples.member "category" (Samples.quoted "food") +:+ ", "
      +:+ Samples.member "message" (Samples.quoted "Noted!") +:+ "}".

Definition doc_null_amount : string :=
  "{" +:+ Samples.member "amount" "null" +:+ ", "
      +:+ Samples.member "category" (Samples.quoted "food") +:+ "}".

Definition documents : list (string * json (PF := DecFloat)) :=
  [ (doc_large_amount,
     JObj [("amount", JInt 1200); ("category", JStr "food"); ("message", JStr "Noted!")]);
    (doc_null_amount, JObj [("amount", JNull); ("category", JStr "food")]) ].

Definition loads : JsonLoads (PF := DecFloat) :=
  {| json_loads := fun s => Samples.decode s documents |}.

End MoreSamples.


(** * Facts about the text primitives *)

Module TextFacts.

Lemma app_nil_l s : EmptyString +:+ s = s.
Proof. reflexivity. Qed.

Lemma app_cons c s t : String c s +:+ t = String c (s +:+ t).
Proof. reflexivity. Qed.

Lemma app_nil_r s : s +:+ EmptyString = s.
Proof. induction s as [|c s IH]; [done|]. by rewrite app_cons, IH. Qed.

Lemma app_assoc s t u : (s +:+ t) +:+ u = s +:+ (t +:+ u).
Proof. induction s as [|c s IH]; [done|]. by rewrite !app_cons, IH. Qed.

Lemma is_digit_lower_char c : is_digit (lower_char c) = is_digit c.
Proof. by destruct c as [[] [] [] [] [] [] [] []]. Qed.

Lemma is_space_lower_char c : is_space (lower_char c) = is_space c.
Proof. by destruct c as [[] [] [] [] [] [] [] []]. Qed.

Lemma lower_char_idemp c : lower_char (lower_char c) = lower_char c.
Proof. by destruct c as [[] [] [] [] [] [] [] []]. Qed.

Lemma lower_char_digit c : is_digit c = true -> lower_char c = c.
Proof. by destruct c as [[] [] [] [] [] [] [] []]. Qed.

Lemma lower_char_space c : is_space c = true -> lower_char c = c.
Proof. by destruct c as [[] [] [] [] [] [] [] []]. Qed.


Lemma digit_not_comma c : is_digit c = true -> Ascii.eqb c ","%char = false.
Proof. by destruct c as [[] [] [] [] [] [] [] []]. Qed.

Lemma space_not_comma c : is_space c = true -> Ascii.eqb c ","%char = false.
Proof. by destruct c as [[] [] [] [] [] [] [] []]. Qed.

Lemma digit_not_space c : is_digit c = true -> is_space c = false.
Proof. by destruct c as [[] [] [] [] [] [] [] []]. Qed.

Lemma lower_app s t : lower (s +:+ t) = lower s +:+ lower t.
Proof. induction s as [|c s IH]; [done|]. rewrite app_cons. simpl. by rewrite IH. Qed.

Lemma remove_char_app x s t :
  remove_char x (s +:+ t) = remove_char x s +:+ remove_char x t.
Proof.
  induction s as [|c s IH]; [done|]. rewrite app_cons. simpl.
  destruct (Ascii.eqb c x); [done|]. by rewrite app_cons, IH.
Qed.


Lemma all_chars_app p s t :
  all_chars p (s +:+ t) = all_chars p s && all_chars p t.
Proof.
  induction s as [|c s IH]; [done|]. rewrite app_cons. simpl.
  rewrite IH. by destruct (p c).
Qed.

Lemma lower_digits s : all_chars is_digit s = true -> lower s = s.
Proof.
  induction s as [|c s IH]; [done|]. simpl. intros [Hc Hs]%andb_prop.
  by rewrite lower_char_digit, IH.
Qed.

Lemma lower_spaces s : all_chars is_space s = true -> lower s = s.
Proof.
  induction s as [|c s IH]; [done|]. simpl. intros [Hc Hs]%andb_prop.
  by rewrite lower_char_space, IH.
Qed.

Lemma remove_comma_digits s :
  all_chars is_digit s = true -> remove_char ","%char s = s.
Proof.
  induction s as [|c s IH]; [done|]. simpl. intros [Hc Hs]%andb_prop.
  by rewrite digit_not_comma, IH.
Qed.

Lemma remove_comma_spaces s :
  all_chars is_space s = true -> remove_char ","%char s = s.
Proof.
  induction s as [|c s IH]; [done|]. simpl. intros [Hc Hs]%andb_prop.
  by rewrite space_not_comma, IH.
Qed.

Lemma no_digit_lower s : no_digit (lower s) = no_digit s.
Proof.
  unfold no_digit. induction s as [|c s IH]; [done|]. simpl.
  by rewrite is_digit_lower_char, IH.
Qed.

Lemma no_digit_remove_char x s : no_digit s = true -> no_digit (remove_char x s) = true.
Proof.
  unfold no_digit. induction s as [|c s IH]; [done|]. simpl.
  intros [Hc Hs]%andb_prop. destruct (Ascii.eqb c x); simpl; [auto|].
  by rewrite Hc, IH.
Qed.

Lemma no_digit_lstrip s : no_digit s = true -> no_digit (lstrip s) = true.
Proof.
  unfold no_digit. induction s as [|c s IH]; [done|]. simpl.
  intros H. destruct (is_space c); [|done].
  apply andb_prop in H as [_ H]. auto.
Qed.

Lemma no_digit_rstrip_with p s :
  no_digit s = true -> no_digit (rstrip_with p s) = true.
Proof.
  unfold no_digit. induction s as [|c s IH]; [done|]. simpl.
  intros [Hc Hs]%andb_prop. specialize (IH Hs).
  destruct (rstrip_with p s) as [|d r].
  - destruct (p c); simpl; [done|]. by rewrite Hc.
  - simpl in *. by rewrite Hc, IH.
Qed.

Lemma no_digit_strip s : no_digit s = true -> no_digit (strip s) = true.
Proof. intros H. apply no_digit_rstrip_with. by apply no_digit_lstrip. Qed.

(** [lstrip] stops at the first character that is no whitespace. *)
Lemma lstrip_app p x :
  head_is (fun c => negb (is_space c)) x = true ->
  lstrip (p +:+ x) = lstrip p +:+ x.
Proof.
  intros Hx. induction p as [|c p IH].
  - destruct x as [|d x]; [done|]. simpl in *. rewrite app_nil_l.
    simpl. by destruct (is_space d).
  - rewrite app_cons. simpl. destruct (is_space c); [done|]. by rewrite app_cons.
Qed.

Lemma rstrip_with_app p a b :
  rstrip_with p b <> EmptyString ->
  rstrip_with p (a +:+ b) = a +:+ rstrip_with p b.
Proof.
  intros Hb. induction a as [|c a IH]; [done|].
  rewrite !app_cons. simpl. rewrite IH.
  destruct a as [|d a].
  - rewrite app_nil_l. by destruct (rstrip_with p b).
  - by rewrite app_cons.
Qed.

(** The longest run stops where the class stops. *)
Lemma span_app p a b :
  all_chars p a = true -> head_is p b = false -> span p (a +:+ b) = (a, b).
Proof.
  intros Ha Hb. induction a as [|c a IH].
  - rewrite app_nil_l. destruct b as [|d b]; [done|]. simpl in *. by rewrite Hb.
  - rewrite app_cons. simpl in *. apply andb_prop in Ha as [Hc Ha].
    by rewrite Hc, IH.
Qed.

Lemma span_head_false p s : head_is p s = false -> span p s = (EmptyString, s).
Proof. destruct s as [|c s]; [done|]. simpl. by intros ->. Qed.

Lemma lstrip_head s : head_is is_space (lstrip s) = false.
Proof.
  induction s as [|c s IH]; [done|]. simpl.
  destruct (is_space c) eqn:E; [done|]. simpl. done.
Qed.

Lemma lstrip_fixed s : head_is is_space s = false -> lstrip s = s.
Proof. destruct s as [|c s]; [done|]. simpl. by intros ->. Qed.

Lemma rstrip_with_head p q s :
  head_is q s = false -> head_is q (rstrip_with p s) = false.
Proof.
  destruct s as [|c s]; [done|]. simpl. intros Hc.
  destruct (rstrip_with p s); [by destruct (p c)|done].
Qed.

Lemma rstrip_with_idemp p s : rstrip_with p (rstrip_with p s) = rstrip_with p s.
Proof.
  induction s as [|c s IH]; [done|]. simpl.
  destruct (rstrip_with p s) as [|d r] eqn:E.
  - destruct (p c) eqn:Ec; [done|]. simpl. by rewrite Ec.
  - change (rstrip_with p (String c (String d r)))
      with (match rstrip_with p (String d r) with
            | EmptyString => if p c then EmptyString else String c EmptyString
            | r' => String c r'
            end).
    by rewrite IH.
Qed.

Lemma span_all p s : all_chars p s = true -> span p s = (s, EmptyString).
Proof.
  induction s as [|c s IH]; [done|]. simpl. intros [Hc Hs]%andb_prop.
  by rewrite Hc, IH.
Qed.

Lemma digit_not_sign c :
  is_digit c = true -> Ascii.eqb c "-"%char = false /\ Ascii.eqb c "+"%char = false.
Proof. by destruct c as [[] [] [] [] [] [] [] []]. Qed.

Lemma digits_no_space s :
  all_chars is_digit s = true -> all_chars (fun c => negb (is_space c)) s = true.
Proof.
  induction s as [|c s IH]; [done|]. simpl. intros [Hc Hs]%andb_prop.
  by rewrite (digit_not_space c Hc), IH.
Qed.

Lemma fraction_no_space s :
  is_fraction s = true -> all_chars (fun c => negb (is_space c)) s = true.
Proof.
  destruct s as [|c fs]; [done|]. simpl.
  intros [[Hc _]%andb_prop Hd]%andb_prop. apply Ascii.eqb_eq in Hc as ->.
  simpl. by apply digits_no_space.
Qed.

Lemma rstrip_no_space s :
  all_chars (fun c => negb (is_space c)) s = true -> rstrip s = s.
Proof.
  unfold rstrip. induction s as [|c s IH]; [done|]. simpl.
  intros [Hc Hs]%andb_prop. rewrite (IH Hs).
  apply negb_true_iff in Hc. rewrite Hc. by destruct s.
Qed.

Lemma strip_no_space s :
  all_chars (fun c => negb (is_space c)) s = true -> strip s = s.
Proof.
  intros H. unfold strip. rewrite lstrip_fixed.
  - by apply rstrip_no_space.
  - destruct s as [|c s]; [done|]. simpl in *.
    apply andb_prop in H as [Hc _]. by apply negb_true_iff in Hc.
Qed.

Lemma strip_idemp s : strip (strip s) = strip s.
Proof.
  unfold strip, rstrip.
  rewrite (lstrip_fixed (rstrip_with is_space (lstrip s))).
  - apply rstrip_with_idemp.
  - apply rstrip_with_head, lstrip_head.
Qed.

End TextFacts.

Lemma dec_of_str_strip s x : Dec.of_str s = Some x -> Dec.of_str (strip s) = Some x.
Proof. unfold Dec.of_str. by rewrite TextFacts.strip_idemp. Qed.

Lemma dec_of_str_literal ds frac :
  ds <> EmptyString -> all_chars is_digit ds = true -> is_fraction frac = true ->
  is_Some (Dec.of_str (ds +:+ frac)).
Proof.
  intros Hne Hds Hfrac. unfold Dec.of_str.
  assert (Hns : all_chars (fun c => negb (is_space c)) (ds +:+ frac) = true).
  { rewrite TextFacts.all_chars_app. apply andb_true_intro. split.
    - by apply TextFacts.digits_no_space.
    - by apply TextFacts.fraction_no_space. }
  rewrite (TextFacts.strip_no_space _ Hns).
  destruct ds as [|d ds]; [done|]. rewrite TextFacts.app_cons.
  simpl in Hds. apply andb_prop in Hds as [Hd Hds].
  destruct (TextFacts.digit_not_sign d Hd) as [Hminus Hplus].
  cbv beta iota. rewrite Hminus, Hplus.
  rewrite <- TextFacts.app_cons.
  rewrite (TextFacts.span_app is_digit (String d ds) frac).
  - destruct frac as [|c fs]; [done|]. simpl in Hfrac.
    apply andb_prop in Hfrac as [[Hc Hfs]%andb_prop Hdig]. rewrite Hc.
    rewrite (TextFacts.span_all is_digit fs Hdig). done.
  - simpl. by rewrite Hd, Hds.
  - destruct frac as [|c fs]; [done|]. simpl in *.
    apply andb_prop in Hfrac as [[Hc _]%andb_prop _].
    apply Ascii.eqb_eq in Hc as ->. done.
Qed.

(** The formats of the decimal instance write digits, commas, a dot and a
    minus sign. *)
Section DecFormat.
Variable p : ascii -> bool.
Hypothesis p_digit : forall d, p (pretty_N_char d) = true.
Hypothesis p_comma : p ","%char = true.
Hypothesis p_dot : p "."%char = true.
Hypothesis p_minus : p "-"%char = true.

Lemma p_zero : p "0"%char = true.
Proof. exact (p_digit 0). Qed.

Lemma all_chars_rev_app s t :
  all_chars p s = true -> all_chars p t = true ->
  all_chars p (String.rev_app s t) = true.
Proof.
  revert t. induction s as [|c s IH]; intros t Hs Ht; [done|].
  simpl in *. apply andb_prop in Hs as [Hc Hs]. apply IH; [done|].
  simpl. by rewrite Hc, Ht.
Qed.

Lemma all_chars_commas n s :
  all_chars p s = true -> all_chars p (Dec.commas n s) = true.
Proof.
  revert n. induction s as [|c s IH]; intros n Hs; [done|].
  simpl in *. apply andb_prop in Hs as [Hc Hs].
  destruct (n =? 3)%nat; simpl; rewrite ?p_comma, Hc; simpl; by apply IH.
Qed.

Lemma all_chars_pretty_N_go x s :
  all_chars p s = true -> all_chars p (pretty_N_go x s) = true.
Proof.
  revert s. induction (N.lt_wf_0 x) as [x _ IH]; intros s Hs.
  destruct (decide (x = 0)%N) as [->|Hx]; [by rewrite pretty_N_go_0|].
  rewrite pretty_N_go_step by lia. apply IH.
  - apply N.div_lt; lia.
  - simpl. by rewrite p_digit, Hs.
Qed.

Lemma all_chars_pretty_Z (x : Z) : all_chars p (pretty x) = true.
Proof.
  assert (Hpos : forall q : positive, all_chars p (pretty q) = true).
  { intros q. unfold pretty, pretty_positive, pretty, pretty_N.
    case_decide; [done|]. by apply all_chars_pretty_N_go. }
  unfold pretty, pretty_Z. destruct x as [|q|q].
  - simpl. by rewrite p_zero.
  - apply Hpos.
  - change ("-" +:+ pretty q) with (String "-"%char (pretty q)).
    simpl. by rewrite p_minus, Hpos.
Qed.

Lemma all_chars_grouped n : all_chars p (Dec.grouped n) = true.
Proof.
  unfold Dec.grouped, String.rev. apply all_chars_rev_app; [|done].
  apply all_chars_commas, all_chars_rev_app; [|done]. apply all_chars_pretty_Z.
Qed.

Lemma all_chars_sign_text n : all_chars p (Dec.sign_text n) = true.
Proof. unfold Dec.sign_text. destruct (n <? 0)%Z; [|done]. simpl. by rewrite p_minus. Qed.

Lemma all_chars_pad_left width s :
  all_chars p s = true -> all_chars p (Dec.pad_left width s) = true.
Proof.
  intros Hs. induction width as [|w IH]; [done|].
  cbn [Dec.pad_left]. destruct (S w <=? String.length s)%nat; [done|].
  simpl. by rewrite p_zero, IH.
Qed.

Lemma all_chars_fmt_0f x : all_chars p (Dec.fmt_0f x) = true.
Proof.
  unfold Dec.fmt_0f. by rewrite TextFacts.all_chars_app, all_chars_sign_text,
    all_chars_grouped.
Qed.

Lemma all_chars_fmt_2f x : all_chars p (Dec.fmt_2f x) = true.
Proof.
  unfold Dec.fmt_2f.
  rewrite !TextFacts.all_chars_app, all_chars_sign_text, all_chars_grouped.
  rewrite all_chars_pad_left by apply all_chars_pretty_Z.
  simpl. by rewrite p_dot.
Qed.

End DecFormat.

Lemma pretty_N_char_no_space d : negb (is_space (pretty_N_char d)) = true.
Proof. unfold pretty_N_char. by repeat case_match. Qed.

#[export] Instance DecFloatLaws : PyFloatLaws DecFloat := {|
  float_of_str_strip := dec_of_str_strip;
  float_of_str_literal := dec_of_str_literal;
  format_2f_no_space :=
    all_chars_fmt_2f _ pretty_N_char_no_space eq_refl eq_refl eq_refl;
  format_0f_no_space :=
    all_chars_fmt_0f _ pretty_N_char_no_space eq_refl eq_refl
|}.

(** * The amount parser *)

Section AmountParser.
Context {PF : PyFloat} {PL : PyFloatLaws PF}.

Lemma rstrip_with_app_cases p a b :
  rstrip_with p (a +:+ b) =
    match rstrip_with p b with
    | EmptyString => rstrip_with p a
    | r => a +:+ r
    end.
Proof.
  induction a as [|c a IH].
  - rewrite TextFacts.app_nil_l. by destruct (rstrip_with p b).
  - rewrite TextFacts.app_cons. simpl. rewrite IH.
    destruct (rstrip_with p b) as [|d r]; [done|].
    rewrite !TextFacts.app_cons.
    by destruct a.
Qed.


Lemma search_amount_skip pre x :
  no_digit pre = true -> search_amount (pre +:+ x) = search_amount x.
Proof.
  unfold no_digit. induction pre as [|c pre IH]; [done|].
  simpl. intros [Hc Hpre]%andb_prop.
  unfold match_amount_at at 1. simpl.
  apply negb_true_iff in Hc. rewrite Hc. simpl. auto.
Qed.

Lemma search_amount_no_digit s : no_digit s = true -> search_amount s = None.
Proof.
  intros H. rewrite <- (TextFacts.app_nil_r s).
  by rewrite search_amount_skip.
Qed.

Lemma head_is_app p a b :
  head_is p (a +:+ b) = match a with EmptyString => head_is p b | String c _ => p c end.
Proof. by destruct a. Qed.

(** The pattern at a position where a number stands, followed by whitespace
    and then by text [t] that starts with neither digit, dot nor space. *)
Lemma match_fraction_none s :
  head_is (fun c => Ascii.eqb c "."%char) s = false ->
  match_fraction s = (EmptyString, s).
Proof. destruct s as [|c s]; [done|]. simpl. by intros ->. Qed.

Lemma match_fraction_some frac t :
  frac <> EmptyString -> is_fraction frac = true -> head_is is_digit t = false ->
  match_fraction (frac +:+ t) = (frac, t).
Proof.
  destruct frac as [|c fs]; [done|]. simpl. intros _ [[Hc Hfs]%andb_prop Hd]%andb_prop Ht.
  rewrite TextFacts.app_cons. simpl. rewrite Hc.
  rewrite (TextFacts.span_app is_digit fs); [|done..].
  by destruct fs.
Qed.

Lemma match_amount_at_number ds frac ws t :
  ds <> EmptyString -> all_chars is_digit ds = true ->
  is_fraction frac = true ->
  all_chars is_space ws = true ->
  plain_head t = true ->
  match_amount_at (ds +:+ frac +:+ ws +:+ t) =
    Some {| group1 := ds +:+ frac;
            group3 := fst <$> match_alternation_ci unit_alternatives t |}.
Proof.
  intros Hne Hds Hfrac Hws Ht. unfold plain_head in Ht.
  apply negb_true_iff in Ht.
  assert (Hwt_d : head_is is_digit (ws +:+ t) = false).
  { rewrite head_is_app. destruct ws as [|c ws].
    - destruct t as [|d t]; [done|]. simpl in *.
      by destruct (is_digit d).
    - simpl in Hws. apply andb_prop in Hws as [Hc _].
      destruct (is_digit c) eqn:E; [|done].
      by rewrite (TextFacts.digit_not_space c E) in Hc. }
  assert (Hwt_dot : head_is (fun c => Ascii.eqb c "."%char) (ws +:+ t) = false).
  { rewrite head_is_app. destruct ws as [|c ws].
    - destruct t as [|d t]; [done|]. simpl in *.
      destruct (Ascii.eqb d "."%char); [|done]. by rewrite orb_true_r in Ht.
    - simpl in Hws. apply andb_prop in Hws as [Hc _].
      destruct (Ascii.eqb c "."%char) eqn:E; [|done].
      apply Ascii.eqb_eq in E as ->. done. }
  assert (Ht_s : head_is is_space t = false).
  { destruct t as [|d t]; [done|]. simpl in *.
    destruct (is_digit d), (is_space d); done. }
  unfold match_amount_at.
  rewrite (TextFacts.span_app is_digit ds); [|done|].
  2:{ rewrite head_is_app. destruct frac as [|c fs]; [done|]. simpl in Hfrac.
      apply andb_prop in Hfrac as [[Hc _]%andb_prop _].
      apply Ascii.eqb_eq in Hc as ->. done. }
  destruct ds as [|d0 ds]; [done|]. simpl is_empty. cbv iota.
  destruct frac as [|c fs].
  - rewrite TextFacts.app_nil_l, TextFacts.app_nil_r.
    rewrite match_fraction_none by done.
    rewrite (TextFacts.span_app is_space ws) by done.
    by rewrite TextFacts.app_nil_r.
  - rewrite match_fraction_some by done.
    by rewrite (TextFacts.span_app is_space ws).
Qed.

Lemma search_amount_at s m : match_amount_at s = Some m -> search_amount s = Some m.
Proof.
  intros Hm. destruct s as [|c s]; [done|].
  change (search_amount (String c s))
    with (match match_amount_at (String c s) with
          | Some m => Some m
          | None => search_amount s
          end).
  by rewrite Hm.
Qed.




Lemma rstrip_app_eq a b b' :
  rstrip b = b' -> b' <> EmptyString -> rstrip (a +:+ b) = a +:+ b'.
Proof. intros <- Hne. by apply TextFacts.rstrip_with_app. Qed.

Lemma fraction_fixed frac :
  is_fraction frac = true -> lower (remove_char ","%char frac) = frac.
Proof.
  destruct frac as [|c fs]; [done|]. simpl.
  intros [[Hc _]%andb_prop Hd]%andb_prop. apply Ascii.eqb_eq in Hc as ->.
  simpl. by rewrite TextFacts.remove_comma_digits, TextFacts.lower_digits.
Qed.


Lemma extract_inr_amount_no_digit text :
  no_digit text = true -> extract_inr_amount text = None.
Proof.
  intros H. unfold extract_inr_amount.
  rewrite search_amount_no_digit; [done|].
  apply TextFacts.no_digit_strip. rewrite TextFacts.no_digit_lower.
  by apply TextFacts.no_digit_remove_char.
Qed.

End AmountParser.





(** * The classifier adapter *)

Section Adapter.
Context {PF : PyFloat} {JL : JsonLoads}.

(** Re-validating the fallback result leaves it as it is: the manual
    extraction computes the same amount again. *)
Lemma manual_extraction_of_fallback prompt :
  (let amount := extract_inr_amount prompt in
   if amount_truthy amount
   then with_amount (fallback_analysis prompt) (format_amount amount)
   else fallback_analysis prompt) = fallback_analysis prompt.
Proof.
  unfold fallback_analysis, with_amount. cbv zeta. cbn [a_category a_message].
  by destruct (amount_truthy (extract_inr_amount prompt)).
Qed.

Lemma analyze_expense_of_fallback prompt text :
  parse_gemini_response text prompt = fallback_analysis prompt ->
  analyze_expense prompt (ResponseText text) = fallback_analysis prompt.
Proof.
  intros Hparse. unfold analyze_expense. cbn [response_text mbind result_bind try_except].
  rewrite Hparse, manual_extraction_of_fallback.
  destruct (negb (is_empty (a_amount (fallback_analysis prompt))) && _); [|done].
  destruct (float_of_str (a_amount (fallback_analysis prompt))) as [amount|]; [|done].
  by destruct (float_le0 amount).
Qed.

Lemma parse_gemini_response_no_span text prompt :
  search_json_span text = None ->
  parse_gemini_response text prompt = fallback_analysis prompt.
Proof. intros H. unfold parse_gemini_response. by rewrite H. Qed.

Lemma parse_gemini_response_bad_json text span prompt :
  search_json_span text = Some span -> json_loads span = None ->
  parse_gemini_response text prompt = fallback_analysis prompt.
Proof. intros H1 H2. unfold parse_gemini_response. by rewrite H1, H2. Qed.

Lemma parse_gemini_response_missing_field text span data prompt :
  search_json_span text = Some span -> json_loads span = Some (JObj data) ->
  dict_get "amount" data = None \/ dict_get "category" data = None ->
  parse_gemini_response text prompt = fallback_analysis prompt.
Proof.
  intros H1 H2 Hmiss. unfold parse_gemini_response. rewrite H1, H2.
  cbn [of_option mbind result_bind].
  destruct Hmiss as [-> | H]; [done|].
  rewrite H. by destruct (dict_get "amount" data).
Qed.

End Adapter.

(** C6. Whatever the text, when the classifier call fails (network error,
    timeout, a response that is not 2xx, an envelope that cannot be read, a
    response without a brace span, a span that is no JSON, or an object
    without amount or without category), [analyze_expense] returns the result
    of [fallback_analysis]: the amount of the amount parser ("???" when it
    finds none), the keyword or emoji category and the canned message of that
    category.  The function is total: every exception of the call ends in
    that result. *)
Theorem analyze_expense_degrades_to_fallback :
  forall (PF : PyFloat) (JL : JsonLoads) (prompt : string),
    analyze_expense prompt NetworkError = fallback_analysis prompt
    /\ analyze_expense prompt Timeout = fallback_analysis prompt
    /\ (forall status, analyze_expense prompt (HttpError status) = fallback_analysis prompt)
    /\ analyze_expense prompt BadEnvelope = fallback_analysis prompt
    /\ (forall text, search_json_span text = None ->
          analyze_expense prompt (ResponseText text) = fallback_analysis prompt)
    /\ (forall text span, search_json_span text = Some span -> json_loads span = None ->
          analyze_expense prompt (ResponseText text) = fallback_analysis prompt)
    /\ (forall text span data,
          search_json_span text = Some span -> json_loads span = Some (JObj data) ->
          dict_get "amount" data = None \/ dict_get "category" data = None ->
          analyze_expense prompt (ResponseText text) = fallback_analysis prompt)
    /\ a_amount (fallback_analysis prompt)
       = (match extract_inr_amount prompt with
          | Some x => if float_truthy x then format_inr (JFloat x) else "???"
          | None => "???"
          end)
    /\ a_category (fallback_analysis prompt) = determine_fallback_category prompt
    /\ a_message (fallback_analysis prompt)
       = JStr (generate_fallback_message (determine_fallback_category prompt)).
Proof.
  intros PF JL prompt. repeat split; try reflexivity.
  - intros text H. by apply analyze_expense_of_fallback, parse_gemini_response_no_span.
  - intros text span H1 H2.
    by eapply analyze_expense_of_fallback, parse_gemini_response_bad_json.
  - intros text span data H1 H2 H3.
    by eapply analyze_expense_of_fallback, parse_gemini_response_missing_field.
  - unfold fallback_analysis. cbn [a_amount].
    by destruct (extract_inr_amount prompt).
Qed.

Lemma analyze_expense_degrades_to_fallback_witness :
  analyze_expense (PF := DecFloat) (JL := SampleJson) "spent 500 on dinner"
    (ResponseText "Sorry, I cannot help with that.")
  = fallback_analysis "spent 500 on dinner"
  /\ analyze_expense (PF := DecFloat) (JL := SampleJson) "spent 500 on dinner"
       (ResponseText "Result: {amount: five hundred}")
     = fallback_analysis "spent 500 on dinner"
  /\ analyze_expense (PF := DecFloat) (JL := SampleJson) "spent 500 on dinner"
       (ResponseText ("Result: " +:+ Samples.doc_no_category))
     = fallback_analysis "spent 500 on dinner".
Proof.
  destruct (analyze_expense_degrades_to_fallback DecFloat SampleJson "spent 500 on dinner")
    as (_ & _ & _ & _ & Hspan & Hjson & Hfield & _).
  split; [|split].
  - apply Hspan. reflexivity.
  - apply (Hjson _ "{amount: five hundred}"); reflexivity.
  - apply (Hfield _ Samples.doc_no_category [("amount", JInt 250)]);
      [reflexivity | reflexivity | right; reflexivity].
Defined.

(** The fallback on the prompt's own example. *)
Example fallback_analysis_dinner :
  fallback_analysis (PF := DecFloat) "spent 500 on dinner"
  = {| a_amount := "500"; a_category := "Food";
       a_message := JStr "Yum! 🍔 I've added your food expense to your tracker. Bon appétit!" |}.
Proof. reflexivity. Qed.

(** * The store and the sessions *)

Section Store.
Context {PF : PyFloat} {JL : JsonLoads}.

Lemma marker_key_not_expense message_id : expense_key (marker_key message_id) = false.
Proof. reflexivity. Qed.

Lemma expense_id_is_expense_key username timestamp :
  expense_key ("EXP#" +:+ username +:+ "#" +:+ timestamp) = true.
Proof. reflexivity. Qed.

(** ** Deleting a list of ids *)

Lemma delete_specific_other fails_at ids (t : gmap string item) k :
  k ∉ ids -> (delete_specific_expenses fails_at ids t).2 !! k = t !! k.
Proof.
  revert fails_at t. induction ids as [|id ids IH]; intros fails_at t Hk; [done|].
  apply not_elem_of_cons in Hk as [Hne Hk]. simpl.
  destruct fails_at as [[|n]|]; [done| |].
  - destruct (delete_specific_expenses _ ids (delete id t)) as [r t'] eqn:E.
    simpl. change t' with (r, t').2. rewrite <- E, IH by done.
    by apply lookup_delete_ne.
  - destruct (delete_specific_expenses _ ids (delete id t)) as [r t'] eqn:E.
    simpl. change t' with (r, t').2. rewrite <- E, IH by done.
    by apply lookup_delete_ne.
Qed.

Lemma delete_specific_subset fails_at ids (t : gmap string item) k it :
  (delete_specific_expenses fails_at ids t).2 !! k = Some it -> t !! k = Some it.
Proof.
  revert fails_at t. induction ids as [|id ids IH]; intros fails_at t; [done|].
  simpl. destruct fails_at as [[|n]|]; [done| |].
  - destruct (delete_specific_expenses _ ids (delete id t)) as [r t'] eqn:E.
    simpl. change t' with (r, t').2. rewrite <- E. intros H%IH.
    apply lookup_delete_Some in H. tauto.
  - destruct (delete_specific_expenses _ ids (delete id t)) as [r t'] eqn:E.
    simpl. change t' with (r, t').2. rewrite <- E. intros H%IH.
    apply lookup_delete_Some in H. tauto.
Qed.

(** When no [delete_item] call fails, every id of the list is gone, every
    other key is as before, and the count is the length of the list. *)
Lemma delete_specific_all ids (t : gmap string item) :
  (delete_specific_expenses None ids t).1 = Ok (length ids)
  /\ forall k, (delete_specific_expenses None ids t).2 !! k
               = if bool_decide (k ∈ ids) then None else t !! k.
Proof.
  revert t. induction ids as [|id ids IH]; intros t.
  - split; [done|]. intros k. by rewrite bool_decide_eq_false_2 by apply not_elem_of_nil.
  - simpl. destruct (IH (delete id t)) as [Hc Hl].
    destruct (delete_specific_expenses None ids (delete id t)) as [r t'] eqn:E.
    simpl in *. subst r. split; [done|]. intros k. rewrite Hl.
    destruct (decide (k ∈ ids)) as [Hin|Hin].
    + rewrite !bool_decide_eq_true_2; [done| |done]. by right.
    + rewrite (bool_decide_eq_false_2 (k ∈ ids)) by done.
      destruct (decide (k = id)) as [->|Hne].
      * rewrite bool_decide_eq_true_2 by left. apply lookup_delete_eq.
      * rewrite bool_decide_eq_false_2.
        -- by apply lookup_delete_ne.
        -- intros [?|?]%elem_of_cons; done.
Qed.

(** ** Scans *)

Lemma elem_of_scan f (t : gmap string item) (r : row) :
  r ∈ scan f t <-> t !! r.1 = Some r.2 /\ f r = true.
Proof.
  unfold scan. rewrite list_elem_of_In, filter_In, <- list_elem_of_In.
  destruct r as [k it]. unfold row. by rewrite elem_of_map_to_list.
Qed.

(** ** Sorting *)

Lemma insert_by_perm {A} (le : A -> A -> bool) x l : insert_by le x l ≡ₚ x :: l.
Proof.
  induction l as [|y l IH]; [done|]. simpl. destruct (le x y); [done|].
  rewrite IH. apply Permutation_swap.
Qed.

Lemma sorted_by_perm {A} (le : A -> A -> bool) l : sorted_by le l ≡ₚ l.
Proof.
  induction l as [|x l IH]; [done|]. simpl.
  by rewrite insert_by_perm, IH.
Qed.

Section Sorted.
Context {A : Type} (le : A -> A -> bool).
Hypothesis le_total : forall x y, le x y = true \/ le y x = true.
Hypothesis le_trans : forall x y z, le x y = true -> le y z = true -> le x z = true.

Lemma insert_by_sorted x l :
  StronglySorted (fun a b => le a b = true) l ->
  StronglySorted (fun a b => le a b = true) (insert_by le x l).
Proof.
  induction 1 as [|y l Hs IH Hy]; simpl.
  - repeat constructor.
  - destruct (le x y) eqn:E.
    + constructor; [by constructor|]. constructor; [done|].
      eapply Forall_impl; [exact Hy|]. intros z Hz. by eapply le_trans.
    + constructor; [done|]. rewrite insert_by_perm. constructor; [|done].
      by destruct (le_total x y) as [H|H]; [rewrite H in E|].
Qed.

Lemma sorted_by_sorted l :
  StronglySorted (fun a b => le a b = true) (sorted_by le l).
Proof.
  induction l as [|x l IH]; simpl; [constructor|]. by apply insert_by_sorted.
Qed.

(** In a sorted list every element of a prefix stands before every element of
    the rest. *)
Lemma sorted_take_drop n l x y :
  StronglySorted (fun a b => le a b = true) l ->
  x ∈ take n l -> y ∈ drop n l -> le x y = true.
Proof.
  intros Hs. revert n. induction Hs as [|z l Hs IH Hz]; intros n Hx Hy.
  - rewrite take_nil in Hx. by apply elem_of_nil in Hx.
  - destruct n as [|n]; [by apply elem_of_nil in Hx|]. simpl in *.
    apply elem_of_cons in Hx as [->|Hx].
    + rewrite Forall_forall in Hz. apply Hz. by eapply subseteq_drop.
    + by eapply IH.
Qed.

End Sorted.



End Store.

(** * The handler keeps the invariants *)

Section Machine.
Context {PF : PyFloat} {PL : PyFloatLaws PF} {JL : JsonLoads}.

Lemma table_ok_insert (t : gmap string item) k it :
  table_ok t -> item_ok k it -> table_ok (<[k := it]> t).
Proof.
  intros Ht Hit k' it'. rewrite lookup_insert. case_decide as Hk.
  - subst k'. by intros [= <-].
  - apply Ht.
Qed.

Lemma table_ok_subset (t t' : gmap string item) :
  table_ok t -> (forall k it, t' !! k = Some it -> t !! k = Some it) -> table_ok t'.
Proof. intros Ht Hsub k it H. by apply Ht, Hsub. Qed.

Lemma sessions_ok_insert (d : gmap string session) u s :
  sessions_ok d -> (forall id, id ∈ expenses_to_delete s -> expense_key id = true) ->
  sessions_ok (<[u := s]> d).
Proof.
  intros Hd Hs u' s' id. rewrite lookup_insert. case_decide as Hu.
  - subst u'. intros [= <-]. apply Hs.
  - apply Hd.
Qed.

Lemma sessions_ok_delete (d : gmap string session) u :
  sessions_ok d -> sessions_ok (delete u d).
Proof.
  intros Hd u' s' id H. apply lookup_delete_Some in H as [_ H]. by eapply Hd.
Qed.

Lemma initial_invariant : invariant initial_world.
Proof.
  split.
  - intros k it H. simpl in H. by rewrite lookup_empty in H.
  - intros u s id H. simpl in H. by rewrite lookup_empty in H.
Qed.

(** ** The pieces of the handler, one by one *)

Lemma mark_as_processed_confirmations e message_id w :
  deletion_confirmations (mark_as_processed e message_id w) = deletion_confirmations w.
Proof. unfold mark_as_processed. by destruct (put_marker_ok e). Qed.

Lemma mark_as_processed_outbox e message_id w :
  outbox (mark_as_processed e message_id w) = outbox w.
Proof. unfold mark_as_processed. by destruct (put_marker_ok e). Qed.

Lemma mark_as_processed_keeps e message_id w k :
  is_Some (table w !! k) -> is_Some (table (mark_as_processed e message_id w) !! k).
Proof.
  unfold mark_as_processed. destruct (put_marker_ok e); [|done]. simpl.
  intros H. rewrite lookup_insert. by case_decide.
Qed.



Lemma mark_as_processed_invariant e message_id w :
  invariant w -> invariant (mark_as_processed e message_id w).
Proof.
  intros [Ht Hs]. unfold mark_as_processed. destruct (put_marker_ok e); [|done].
  split; [|done]. simpl. by apply table_ok_insert.
Qed.

(** The lookup of a session changes the session dict at most by removing the
    sender's entry. *)
Lemma is_deletion_confirmation_world e username text w :
  let w' := (is_deletion_confirmation e username text w).2 in
  table w' = table w /\ outbox w' = outbox w
  /\ (deletion_confirmations w' = deletion_confirmations w
      \/ deletion_confirmations w' = delete username (deletion_confirmations w)).
Proof.
  unfold is_deletion_confirmation.
  destruct (deletion_confirmations w !! username) as [s|]; [|by auto].
  destruct (expires_at s <? time_now e)%Z; [by auto|].
  destruct (String.eqb (lower text) "cancel"); [by auto|].
  destruct (match_confirm (lower text)); by auto.
Qed.

Lemma is_deletion_confirmation_invariant e username text w :
  invariant w -> invariant (is_deletion_confirmation e username text w).2.
Proof.
  intros [Ht Hs].
  destruct (is_deletion_confirmation_world e username text w) as (Htab & _ & [Hd|Hd]);
    split; rewrite ?Htab, ?Hd; auto using sessions_ok_delete.
Qed.

Lemma handle_deletion_confirmation_world e chat_id message_id username text w :
  let w' := handle_deletion_confirmation e chat_id message_id username text w in
  (deletion_confirmations w' = deletion_confirmations w
   \/ deletion_confirmations w' = delete username (deletion_confirmations w))
  /\ (forall k it, table w' !! k = Some it -> table w !! k = Some it)
  /\ (forall k,
        (forall s, deletion_confirmations w !! username = Some s ->
                   k ∉ expenses_to_delete s) ->
        table w' !! k = table w !! k).
Proof.
  unfold handle_deletion_confirmation.
  destruct (deletion_confirmations w !! username) as [s|] eqn:Es; [|by auto].
  destruct (String.eqb (lower text) "cancel"); [by auto|].
  destruct (delete_specific_expenses (delete_fails_at e) (expenses_to_delete s) (table w))
    as [r t'] eqn:Ed.
  assert (Hsub : forall k it, t' !! k = Some it -> table w !! k = Some it).
  { intros k it. change t' with (r, t').2. rewrite <- Ed. apply delete_specific_subset. }
  assert (Hother : forall k,
             (forall s', Some s = Some s' -> k ∉ expenses_to_delete s') ->
             t' !! k = table w !! k).
  { intros k Hk. change t' with (r, t').2. rewrite <- Ed.
    apply delete_specific_other. by apply Hk. }
  destruct r as [n|]; [|by auto].
  destruct (s_time_range s !! "description"); by auto.
Qed.

Lemma handle_deletion_confirmation_invariant e chat_id message_id username text w :
  invariant w -> invariant (handle_deletion_confirmation e chat_id message_id username text w).
Proof.
  intros [Ht Hs].
  destruct (handle_deletion_confirmation_world e chat_id message_id username text w)
    as ([Hd|Hd] & Hsub & _);
    split; rewrite ?Hd; eauto using sessions_ok_delete, table_ok_subset.
Qed.

(** The candidates of a deletion request are expense records of the user,
    read from the table. *)
Lemma get_all_user_expenses_rows e username w r :
  r ∈ get_all_user_expenses e username w ->
  table w !! r.1 = Some r.2 /\ is_expense_of username r = true.
Proof.
  unfold get_all_user_expenses. destruct (scan_ok e).
  - by intros ?%elem_of_scan.
  - by intros ?%elem_of_nil.
Qed.

Lemma slice_to_subseteq {A} k (l : list A) : slice_to k l ⊆ l.
Proof. unfold slice_to. destruct (0 <=? k)%Z; apply subseteq_take. Qed.

Lemma first_count_subseteq {A} count (l l' : list A) :
  first_count count l = Ok l' -> l' ⊆ l.
Proof.
  unfold first_count. destruct count as [|b|c|x|s|a|o]; try done.
  - intros [= <-]. apply slice_to_subseteq.
  - intros [= <-]. apply slice_to_subseteq.
  - destruct (int_lt_float _ x); [|done]. intros [= <-]. apply slice_to_subseteq.
Qed.

Lemma deletion_candidates_rows e username time_range w l :
  deletion_candidates e username time_range w = Ok l ->
  forall r, r ∈ l -> table w !! r.1 = Some r.2 /\ is_expense_of username r = true.
Proof.
  unfold deletion_candidates.
  destruct (negb (is_none (py_get time_range "count"))).
  - destruct (time_range !! "count") as [count|]; [|done].
    cbn [of_option mbind result_bind]. intros Hc r Hr.
    apply first_count_subseteq in Hc. apply Hc in Hr.
    apply get_all_user_expenses_rows with (e := e).
    destruct (is_last _); by rewrite sorted_by_perm in Hr.
  - destruct (negb (is_none (py_get time_range "days"))).
    + destruct (time_range !! "days") as [days|]; [|done].
      cbn [of_option mbind result_bind].
      destruct (days_ago e days) as [start_time|]; [|done].
      cbn [of_option mbind result_bind]. intros [= <-] r.
      unfold get_user_expenses_for_deletion. destruct (scan_ok e).
      * intros [? [? _]%andb_prop]%elem_of_scan. done.
      * by intros ?%elem_of_nil.
    + intros [= <-] r. apply get_all_user_expenses_rows.
Qed.

Lemma handle_deletion_request_world e chat_id message_id username time_range w :
  let w' := handle_deletion_request e chat_id message_id username time_range w in
  table w' = table w
  /\ (deletion_confirmations w' = deletion_confirmations w
      \/ exists l,
           deletion_candidates e username time_range w = Ok l /\ l <> []
           /\ deletion_confirmations w'
              = <[username := {| confirmation_code := str_take 8 (uuid4 e);
                                 s_time_range := time_range;
                                 expenses_to_delete := row_id <$> l;
                                 s_chat_id := chat_id;
                                 expense_count := length l;
                                 expires_at := time_now e + 300 |}]>
                  (deletion_confirmations w)).
Proof.
  unfold handle_deletion_request.
  destruct (deletion_candidates e username time_range w) as [l|] eqn:E; [|by auto].
  case_bool_decide as Hl; [by auto|].
  assert (l <> []) by (by destruct l).
  destruct (time_range !! "description"); (split; [done|]); right; by exists l.
Qed.

Lemma handle_deletion_request_invariant e chat_id message_id username time_range w :
  invariant w ->
  invariant (handle_deletion_request e chat_id message_id username time_range w).
Proof.
  intros [Ht Hs].
  destruct (handle_deletion_request_world e chat_id message_id username time_range w)
    as (Htab & [Hd|(l & Hl & _ & Hd)]); split; rewrite ?Htab, ?Hd; try done.
  apply sessions_ok_insert; [done|]. simpl. intros id Hid.
  apply list_elem_of_fmap in Hid as (r & -> & Hr).
  destruct (deletion_candidates_rows _ _ _ _ _ Hl r Hr) as [Hrow Hexp].
  specialize (Ht _ _ Hrow). unfold is_expense_of in Hexp.
  destruct r.2; [done|]. apply Ht.
Qed.

Lemma store_user_expense_world e username a original_text w :
  deletion_confirmations (store_user_expense e username a original_text w)
  = deletion_confirmations w
  /\ outbox (store_user_expense e username a original_text w) = outbox w
  /\ (forall k, is_Some (table w !! k) ->
                is_Some (table (store_user_expense e username a original_text w) !! k)).
Proof.
  unfold store_user_expense.
  destruct (float_of_str _) as [amount|]; [|done].
  destruct (float_le0 amount); [done|].
  destruct (put_expense_ok e); [|done]. simpl. repeat split; try done.
  intros k Hk. rewrite lookup_insert. by case_decide.
Qed.

(** Alone, [store_user_expense] writes no amount that satisfies
    [amount <= 0]; behind the guard of the handler the amount also
    satisfies [amount > 0]. *)
Lemma store_user_expense_invariant e username a original_text w amount :
  float_of_str (strip (remove_char ","%char (a_amount a))) = Some amount ->
  float_gt0 amount = true ->
  invariant w -> invariant (store_user_expense e username a original_text w).
Proof.
  intros Hamount Hpos [Ht Hs]. unfold store_user_expense.
  destruct (float_of_str (remove_char ","%char (a_amount a)))
    as [stored|] eqn:Hstored; [|done].
  apply float_of_str_strip in Hstored. rewrite Hamount in Hstored.
  injection Hstored as <-.
  destruct (float_le0 amount) eqn:Hle; [done|].
  destruct (put_expense_ok e); [|done]. split; [|done]. simpl.
  apply table_ok_insert; [done|]. by repeat split.
Qed.

Lemma handle_entry_world e chat_id message_id username text w :
  let w' := (handle_entry e chat_id message_id username text w).2 in
  deletion_confirmations w' = deletion_confirmations w
  /\ (forall k, is_Some (table w !! k) -> is_Some (table w' !! k)).
Proof.
  unfold handle_entry.
  destruct (negb (mentions_listing text)); [|done].
  destruct (negb (is_empty _) && _); [|done].
  destruct (float_of_str _) as [amount|]; [|done].
  destruct (float_gt0 amount); [|done]. simpl.
  destruct (store_user_expense_world e username
              (analyze_expense text (classifier e)) text w) as (Hd & _ & Hk).
  done.
Qed.

Lemma handle_entry_invariant e chat_id message_id username text w :
  invariant w -> invariant (handle_entry e chat_id message_id username text w).2.
Proof.
  intros Hinv. unfold handle_entry.
  destruct (negb (mentions_listing text)); [|done].
  destruct (negb (is_empty _) && _); [|done].
  destruct (float_of_str _) as [amount|] eqn:Ea; [|done].
  destruct (float_gt0 amount) eqn:Hpos; [|done]. simpl.
  by apply (store_user_expense_invariant _ _ _ _ _ amount).
Qed.

(** ** Routing *)

Lemma route_invariant e chat_id message_id username text w :
  invariant w -> invariant (route e chat_id message_id username text w).2.
Proof.
  intros Hinv. unfold route.
  pose proof (is_deletion_confirmation_invariant e username text w Hinv) as Hinv'.
  destruct (is_deletion_confirmation e username text w) as [confirmation w'].
  simpl in Hinv'. destruct confirmation; simpl.
  - by apply handle_deletion_confirmation_invariant.
  - destruct (is_deletion_request text); simpl.
    + by apply handle_deletion_request_invariant.
    + destruct (is_expense_query text); simpl; [done|].
      by apply handle_entry_invariant.
Qed.

(** Without a confirmation nothing is deleted. *)
Lemma route_keeps_unconfirmed e chat_id message_id username text w k :
  (is_deletion_confirmation e username text w).1 = false ->
  is_Some (table w !! k) ->
  is_Some (table (route e chat_id message_id username text w).2 !! k).
Proof.
  intros Hconf Hk. unfold route.
  destruct (is_deletion_confirmation_world e username text w) as (Htab & _ & _).
  destruct (is_deletion_confirmation e username text w) as [confirmation w'].
  simpl in *. subst confirmation. rewrite <- Htab in Hk.
  destruct (is_deletion_request text); simpl.
  - destruct (handle_deletion_request_world e chat_id message_id username
                (extract_deletion_time_range text (classifier e)) w') as [-> _].
    done.
  - destruct (is_expense_query text); simpl; [done|].
    by apply handle_entry_world.
Qed.

(** A key outside the sender's snapshot is never deleted. *)
Lemma route_keeps_other e chat_id message_id username text w k :
  (forall s, deletion_confirmations w !! username = Some s -> k ∉ expenses_to_delete s) ->
  is_Some (table w !! k) ->
  is_Some (table (route e chat_id message_id username text w).2 !! k).
Proof.
  intros Hout Hk.
  destruct (is_deletion_confirmation e username text w) as [confirmation w'] eqn:E.
  destruct confirmation.
  - unfold route. rewrite E. simpl.
    destruct (is_deletion_confirmation_world e username text w) as (Htab & _ & Hd).
    rewrite E in Htab, Hd. simpl in Htab, Hd.
    destruct (handle_deletion_confirmation_world e chat_id message_id username text w')
      as (_ & _ & Hother).
    rewrite Hother, Htab; [done|].
    intros s Hs. apply Hout. destruct Hd as [Hd|Hd]; rewrite Hd in Hs; [done|].
    by rewrite lookup_delete_eq in Hs.
  - apply route_keeps_unconfirmed; [|done]. by rewrite E.
Qed.

Lemma route_keeps_non_expense e chat_id message_id username text w k :
  invariant w -> expense_key k = false ->
  is_Some (table w !! k) ->
  is_Some (table (route e chat_id message_id username text w).2 !! k).
Proof.
  intros [_ Hs] Hkey. apply route_keeps_other. intros s Hsess Hin.
  by rewrite (Hs _ _ _ Hsess Hin) in Hkey.
Qed.

(** ** The handler *)

Lemma lambda_handler_rejected e m w :
  accepted m = false ->
  lambda_handler e (Update m) w = ({| statusCode := 400; body := "Invalid request" |}, w).
Proof.
  unfold accepted, lambda_handler. destruct (m_chat_id m) as [chat_id|]; [|done].
  intros H%negb_false_iff. by rewrite H.
Qed.

Lemma lambda_handler_accepted e m w :
  accepted m = true ->
  exists chat_id,
    m_chat_id m = Some chat_id
    /\ lambda_handler e (Update m) w
       = if check_if_processed e (message_id_of m) w
         then ({| statusCode := 200; body := "Already processed" |}, w)
         else route e chat_id (message_id_of m) (username_of m) (text_of m)
                (mark_as_processed e (message_id_of m) w).
Proof.
  unfold accepted, lambda_handler. destruct (m_chat_id m) as [chat_id|]; [|done].
  intros H%negb_true_iff. exists chat_id. by rewrite H.
Qed.


Lemma lambda_handler_invariant e ev w :
  invariant w -> invariant (lambda_handler e ev w).2.
Proof.
  intros Hinv. destruct ev as [|m]; [done|].
  destruct (accepted m) eqn:Hacc.
  - destruct (lambda_handler_accepted e m w Hacc) as (chat_id & _ & ->).
    destruct (check_if_processed e (message_id_of m) w); [done|].
    by apply route_invariant, mark_as_processed_invariant.
  - by rewrite lambda_handler_rejected.
Qed.

Lemma lambda_handler_keeps_non_expense e ev w k :
  invariant w -> expense_key k = false ->
  is_Some (table w !! k) -> is_Some (table (lambda_handler e ev w).2 !! k).
Proof.
  intros Hinv Hkey Hk. destruct ev as [|m]; [done|].
  destruct (accepted m) eqn:Hacc.
  - destruct (lambda_handler_accepted e m w Hacc) as (chat_id & _ & ->).
    destruct (check_if_processed e (message_id_of m) w); [done|].
    apply route_keeps_non_expense; [by apply mark_as_processed_invariant|done|].
    by apply mark_as_processed_keeps.
  - by rewrite lambda_handler_rejected.
Qed.


Lemma reachable_from_invariant w0 w :
  invariant w0 -> reachable_from w0 w -> invariant w.
Proof. intros H0. induction 1; [done|]. by apply lambda_handler_invariant. Qed.

Lemma reachable_invariant w : reachable w -> invariant w.
Proof. apply reachable_from_invariant, initial_invariant. Qed.

(** Markers are never deleted. *)
Lemma reachable_from_keeps_marker w0 w message_id :
  invariant w0 -> reachable_from w0 w ->
  is_Some (table w0 !! marker_key message_id) ->
  is_Some (table w !! marker_key message_id).
Proof.
  intros H0 Hreach Hm. induction Hreach as [|e ev w Hreach IH]; [done|].
  apply lambda_handler_keeps_non_expense; [|done..].
  by eapply reachable_from_invariant.
Qed.

End Machine.

(** * Stored amounts *)

(** C8. No expense record with a non-positive amount is ever stored:
    [store_user_expense] returns without writing when the parsed amount
    satisfies [amount <= 0], and in every state the handler reaches from the
    empty store each EXPENSE record has an amount with [amount > 0] (and
    without [amount <= 0]). *)
Theorem stored_expense_amounts_positive :
  forall (PF : PyFloat) (PL : PyFloatLaws PF) (JL : JsonLoads),
    (forall e username a original_text w amount,
        float_of_str (remove_char ","%char (a_amount a)) = Some amount ->
        float_le0 amount = true ->
        store_user_expense e username a original_text w = w)
    /\ (forall w k username timestamp amount category description,
          reachable w ->
          table w !! k = Some (Expense username timestamp amount category description) ->
          float_gt0 amount = true /\ float_le0 amount = false).
Proof.
  intros PF PL JL. split.
  - intros e username a original_text w amount Ha Hle.
    unfold store_user_expense. by rewrite Ha, Hle.
  - intros w k username timestamp amount category description Hreach Hk.
    destruct (reachable_invariant w Hreach) as [Ht _].
    apply (Ht _ _ Hk).
Qed.

Lemma stored_expense_amounts_positive_witness :
  store_user_expense (PF := DecFloat)
    (Scenario.quiet "2024-05-01T09:00:00" 1000) "alice"
    {| a_amount := "-5"; a_category := "Food"; a_message := JNull |}
    "refund -5" initial_world = initial_world
  /\ float_gt0 (PyFloat := DecFloat) (Dec.Decimal 500 0) = true
  /\ float_le0 (PyFloat := DecFloat) (Dec.Decimal 500 0) = false.
Proof.
  destruct (stored_expense_amounts_positive DecFloat DecFloatLaws SampleJson)
    as [Hskip Hpos].
  split.
  - apply (Hskip _ _ _ _ _ (Dec.Decimal (-5) 0)); reflexivity.
  - apply (Hpos Scenario.three_expenses "EXP#alice#2024-05-01T09:00:00"
             "alice" "2024-05-01T09:00:00" (Dec.Decimal 500 0) "Food"
             "spent 500 on dinner").
    + do 3 apply reach_step. apply reach_here.
    + reflexivity.
Defined.

(** * Idempotency *)

Section Idempotency.
Context {PF : PyFloat} {PL : PyFloatLaws PF} {JL : JsonLoads}.


Lemma route_status e chat_id message_id username text w :
  statusCode (route e chat_id message_id username text w).1 = 200%Z.
Proof.
  unfold route. destruct (is_deletion_confirmation e username text w) as [[] w']; [done|].
  destruct (is_deletion_request text); [done|].
  destruct (is_expense_query text); [done|].
  unfold handle_entry.
  destruct (negb (mentions_listing text)); [|done].
  destruct (negb (is_empty _) && _); [|done].
  destruct (float_of_str _) as [amount|]; [|done].
  by destruct (float_gt0 amount).
Qed.


End Idempotency.





(** * Confirmation with a wrong code, or too late *)

Section Confirmation.
Context {PF : PyFloat} {PL : PyFloatLaws PF} {JL : JsonLoads}.

Lemma is_deletion_confirmation_expired e username text w s :
  deletion_confirmations w !! username = Some s ->
  (expires_at s < time_now e)%Z ->
  is_deletion_confirmation e username text w
  = (false, with_confirmations w (delete username (deletion_confirmations w))).
Proof.
  intros Hs Hlate. unfold is_deletion_confirmation. rewrite Hs.
  by apply Z.ltb_lt in Hlate as ->.
Qed.

Lemma is_deletion_confirmation_wrong_code e username text w s :
  deletion_confirmations w !! username = Some s ->
  (time_now e <= expires_at s)%Z ->
  lower text <> "cancel" ->
  match_confirm (lower text) <> Some (confirmation_code s) ->
  is_deletion_confirmation e username text w = (false, w).
Proof.
  intros Hs Hlive Hcancel Hcode. unfold is_deletion_confirmation. rewrite Hs.
  assert ((expires_at s <? time_now e)%Z = false) as -> by (apply Z.ltb_ge; lia).
  destruct (String.eqb_spec (lower text) "cancel") as [|_]; [done|].
  destruct (match_confirm (lower text)) as [code|]; [|done].
  destruct (String.eqb_spec code (confirmation_code s)) as [->|]; done.
Qed.

Lemma is_deletion_confirmation_marked e e' message_id username text w :
  is_deletion_confirmation e username text (mark_as_processed e' message_id w)
  = ((is_deletion_confirmation e username text w).1,
     with_table (is_deletion_confirmation e username text w).2
       (table (mark_as_processed e' message_id w))).
Proof.
  unfold is_deletion_confirmation. rewrite mark_as_processed_confirmations.
  unfold mark_as_processed. destruct (put_marker_ok e'); simpl.
  - destruct (deletion_confirmations w !! username) as [s|]; [|done].
    destruct (expires_at s <? time_now e)%Z; [done|].
    destruct (String.eqb (lower text) "cancel"); [done|].
    by destruct (match_confirm (lower text)).
  - destruct (deletion_confirmations w !! username) as [s|]; [|by destruct w].
    destruct (expires_at s <? time_now e)%Z; [done|].
    destruct (String.eqb (lower text) "cancel"); [done|].
    destruct (match_confirm (lower text)); by destruct w.
Qed.

(** A handling during which the sender's lookup is no confirmation deletes
    no record. *)
Lemma lambda_handler_keeps_unconfirmed e m w k :
  (is_deletion_confirmation e (username_of m) (text_of m) w).1 = false ->
  is_Some (table w !! k) ->
  is_Some (table (lambda_handler e (Update m) w).2 !! k).
Proof.
  intros Hconf Hk. destruct (accepted m) eqn:Hacc.
  - destruct (lambda_handler_accepted e m w Hacc) as (chat_id & _ & ->).
    destruct (check_if_processed e (message_id_of m) w); [done|].
    apply route_keeps_unconfirmed.
    + by rewrite is_deletion_confirmation_marked.
    + by apply mark_as_processed_keeps.
  - by rewrite lambda_handler_rejected.
Qed.

(** A wrong code leaves a session pending for the sender at the end of the
    handling. *)
Lemma route_session_stays e chat_id message_id username text w :
  is_deletion_confirmation e username text w = (false, w) ->
  is_Some (deletion_confirmations w !! username) ->
  is_Some (deletion_confirmations (route e chat_id message_id username text w).2
           !! username).
Proof.
  intros Hconf Hs. unfold route. rewrite Hconf.
  destruct (is_deletion_request text); simpl.
  - destruct (handle_deletion_request_world e chat_id message_id username
                (extract_deletion_time_range text (classifier e)) w)
      as (_ & [->|(l & _ & _ & ->)]); [done|].
    by rewrite lookup_insert_eq.
  - destruct (is_expense_query text); simpl; [done|].
    by rewrite (proj1 (handle_entry_world e chat_id message_id username text w)).
Qed.

Lemma lambda_handler_session_stays e m w :
  is_deletion_confirmation e (username_of m) (text_of m) w = (false, w) ->
  is_Some (deletion_confirmations w !! username_of m) ->
  is_Some (deletion_confirmations (lambda_handler e (Update m) w).2 !! username_of m).
Proof.
  intros Hconf Hs. destruct (accepted m) eqn:Hacc.
  - destruct (lambda_handler_accepted e m w Hacc) as (chat_id & _ & ->).
    destruct (check_if_processed e (message_id_of m) w); [done|].
    apply route_session_stays.
    + rewrite is_deletion_confirmation_marked, Hconf. simpl.
      unfold mark_as_processed. destruct (put_marker_ok e); [done|by destruct w].
    + by rewrite mark_as_processed_confirmations.
  - by rewrite lambda_handler_rejected.
Qed.

End Confirmation.

(** C4. With a session pending for the sender: a confirm message whose code
    is not the session's, arriving before expiry, is no confirmation and
    leaves the session dict as it is, and the handling of that message ends
    with a session pending and every record still in the table; and any
    message arriving after [expires_at], a confirm with the right code and a
    cancel included, finds the session removed on lookup, is no confirmation
    either, and its handling deletes no record. *)
Theorem wrong_code_or_late_confirmation_deletes_nothing :
  forall (PF : PyFloat) (PL : PyFloatLaws PF) (JL : JsonLoads) e m w s,
    deletion_confirmations w !! username_of m = Some s ->
    ((time_now e <= expires_at s)%Z ->
     forall code,
       match_confirm (lower (text_of m)) = Some code -> code <> confirmation_code s ->
       is_deletion_confirmation e (username_of m) (text_of m) w = (false, w)
       /\ is_Some (deletion_confirmations (lambda_handler e (Update m) w).2
                   !! username_of m)
       /\ (forall k, is_Some (table w !! k) ->
                     is_Some (table (lambda_handler e (Update m) w).2 !! k)))
    /\ ((expires_at s < time_now e)%Z ->
        is_deletion_confirmation e (username_of m) (text_of m) w
        = (false, with_confirmations w
                    (delete (username_of m) (deletion_confirmations w)))
        /\ (forall k, is_Some (table w !! k) ->
                      is_Some (table (lambda_handler e (Update m) w).2 !! k))).
Proof.
  intros PF PL JL e m w s Hs. split.
  - intros Hlive code Hcode Hne.
    assert (Hconf : is_deletion_confirmation e (username_of m) (text_of m) w = (false, w)).
    { apply (is_deletion_confirmation_wrong_code _ _ _ _ s); [done..| |].
      - intros Hcancel. by rewrite Hcancel in Hcode.
      - rewrite Hcode. by intros [= ->]. }
    split; [done|]. split.
    + by apply lambda_handler_session_stays.
    + intros k. apply lambda_handler_keeps_unconfirmed. by rewrite Hconf.
  - intros Hlate.
    pose proof (is_deletion_confirmation_expired e _ (text_of m) w s Hs Hlate) as Hconf.
    split; [done|].
    intros k. apply lambda_handler_keeps_unconfirmed. by rewrite Hconf.
Qed.

Lemma wrong_code_or_late_confirmation_deletes_nothing_witness :
  is_deletion_confirmation (Scenario.quiet "2024-05-04T09:02:00" 4100) "alice"
    "confirm deadbeef" Scenario.pending_and_one_more
  = (false, Scenario.pending_and_one_more)
  /\ is_deletion_confirmation (Scenario.quiet "2024-05-04T10:00:00" 7600) "alice"
       "confirm 3f2a9c1e" Scenario.pending_and_one_more
     = (false, with_confirmations Scenario.pending_and_one_more
                 (delete "alice" (deletion_confirmations Scenario.pending_and_one_more))).
Proof.
  split.
  - destruct (wrong_code_or_late_confirmation_deletes_nothing
                DecFloat DecFloatLaws SampleJson
                (Scenario.quiet "2024-05-04T09:02:00" 4100)
                (Scenario.from_alice "confirm deadbeef" (Some 6%Z))
                Scenario.pending_and_one_more
                {| confirmation_code := "3f2a9c1e";
                   s_time_range := Scenario.scope_first_two;
                   expenses_to_delete := ["EXP#alice#2024-05-01T09:00:00";
                                          "EXP#alice#2024-05-02T09:00:00"];
                   s_chat_id := 42;
                   expense_count := 2;
                   expires_at := 4300 |}) as [Hwrong _]; [reflexivity|].
    apply (Hwrong ltac:(discriminate) "deadbeef"); [reflexivity | discriminate].
  - destruct (wrong_code_or_late_confirmation_deletes_nothing
                DecFloat DecFloatLaws SampleJson
                (Scenario.quiet "2024-05-04T10:00:00" 7600)
                (Scenario.from_alice "confirm 3f2a9c1e" (Some 6%Z))
                Scenario.pending_and_one_more
                {| confirmation_code := "3f2a9c1e";
                   s_time_range := Scenario.scope_first_two;
                   expenses_to_delete := ["EXP#alice#2024-05-01T09:00:00";
                                          "EXP#alice#2024-05-02T09:00:00"];
                   s_chat_id := 42;
                   expense_count := 2;
                   expires_at := 4300 |}) as [_ Hlate]; [reflexivity|].
    apply Hlate. reflexivity.
Defined.

(** * Cancelling *)

(** C5 as the code runs it.  With a live session pending for the sender, the
    message "cancel" (in any letter case) is taken as a confirmation and
    [is_deletion_confirmation] already removes the session; the handler
    [handle_deletion_confirmation] then finds no session and answers
    "I don't have any pending deletion requests for you.".  The session is
    discarded and no record is deleted, but the reply that the data remains
    intact, written in the cancel branch of the handler, is never sent. *)
Theorem cancel_is_answered_as_no_pending_request :
  forall (PF : PyFloat) (PL : PyFloatLaws PF) (JL : JsonLoads) e m w s chat_id,
    m_chat_id m = Some chat_id -> accepted m = true ->
    lower (text_of m) = "cancel" ->
    deletion_confirmations w !! username_of m = Some s ->
    (time_now e <= expires_at s)%Z ->
    check_if_processed e (message_id_of m) w = false ->
    let w' := (lambda_handler e (Update m) w).2 in
    deletion_confirmations w' = delete (username_of m) (deletion_confirmations w)
    /\ table w' = table (mark_as_processed e (message_id_of m) w)
    /\ outbox w'
       = (outbox w
          ++ [{| r_chat_id := chat_id;
                 r_reply_to := message_id_of m;
                 r_text := Plain "I don't have any pending deletion requests for you." |}])%list.
Proof.
  intros PF PL JL e m w s chat_id Hchat Hacc Hcancel Hs Hlive Hnew.
  destruct (lambda_handler_accepted e m w Hacc) as (chat_id' & Hchat' & ->).
  rewrite Hchat in Hchat'. injection Hchat' as <-.
  rewrite Hnew. unfold route, is_deletion_confirmation.
  rewrite mark_as_processed_confirmations, Hs.
  assert ((expires_at s <? time_now e)%Z = false) as -> by (apply Z.ltb_ge; lia).
  rewrite Hcancel. simpl String.eqb. cbv iota.
  unfold handle_deletion_confirmation. cbn [deletion_confirmations with_confirmations].
  rewrite lookup_delete_eq. cbn [snd send_telegram_reply deletion_confirmations table outbox
                                 with_confirmations].
  by rewrite mark_as_processed_outbox.
Qed.

Lemma cancel_is_answered_as_no_pending_request_witness :
  let e := Scenario.quiet "2024-05-04T09:02:00" 4100 in
  let m := Scenario.from_alice "Cancel" (Some 6%Z) in
  let w := Scenario.pending_and_one_more in
  let w' := (lambda_handler e (Update m) w).2 in
  deletion_confirmations w' = delete "alice" (deletion_confirmations w)
  /\ table w' = table (mark_as_processed e "6" w)
  /\ outbox w'
     = (outbox w
        ++ [{| r_chat_id := 42;
               r_reply_to := "6";
               r_text := Plain "I don't have any pending deletion requests for you." |}])%list.
Proof.
  intros e m w.
  apply (cancel_is_answered_as_no_pending_request DecFloat DecFloatLaws SampleJson
           e m w
           {| confirmation_code := "3f2a9c1e";
              s_time_range := Scenario.scope_first_two;
              expenses_to_delete := ["EXP#alice#2024-05-01T09:00:00";
                                     "EXP#alice#2024-05-02T09:00:00"];
              s_chat_id := 42;
              expense_count := 2;
              expires_at := 4300 |} 42%Z);
    [reflexivity | reflexivity | reflexivity | reflexivity | discriminate
    | reflexivity].
Defined.

(** * Confirmed deletion *)

Section Deletion.
Context {PF : PyFloat} {PL : PyFloatLaws PF} {JL : JsonLoads}.




End Deletion.



(** * A count without a position *)

Section Position.
Context {PF : PyFloat} {PL : PyFloatLaws PF} {JL : JsonLoads}.

(** The scope dict always holds the key [position]: [None] when the
    classifier failed, sent no object, or sent one without that member. *)
Lemma extract_deletion_time_range_position text o :
  extract_deletion_time_range text o !! "position"
  = Some (match extracted_object o with
          | Ok (Some data) => obj_get data "position"
          | _ => JNull
          end).
Proof.
  unfold extract_deletion_time_range.
  destruct (extracted_object o) as [[data|]|]; by simplify_map_eq.
Qed.

Lemma extract_deletion_time_range_count text o :
  extract_deletion_time_range text o !! "count"
  = Some (match extracted_object o with
          | Ok (Some data) => obj_get data "count"
          | _ => JNull
          end).
Proof.
  unfold extract_deletion_time_range.
  destruct (extracted_object o) as [[data|]|]; by simplify_map_eq.
Qed.

End Position.

(** C2 as the code runs it.  The scope dict built by
    [extract_deletion_time_range] always holds the key [position], with
    [None] when the classifier named no position, so the default "last" of
    [time_range.get("position", "last")] never applies: for a count that is
    not [None] and a position that is [None] the candidates are sorted by
    timestamp ascending and the first [count] of them, the oldest records,
    are selected, not the most recent ones. *)
Theorem count_without_position_selects_oldest :
  forall (PF : PyFloat) (PL : PyFloatLaws PF) (JL : JsonLoads) text o e username w,
    let time_range := extract_deletion_time_range text o in
    (forall data,
        extracted_object o = Ok (Some data) -> obj_get data "position" = JNull ->
        time_range !! "position" = Some JNull)
    /\ (forall count,
          time_range !! "count" = Some count -> is_none count = false ->
          time_range !! "position" = Some JNull ->
          deletion_candidates e username time_range w
          = first_count count
              (sorted_by oldest_first (get_all_user_expenses e username w))).
Proof.
  intros PF PL JL text o e username w time_range. split.
  - intros data Hobj Hmiss. unfold time_range.
    by rewrite extract_deletion_time_range_position, Hobj, Hmiss.
  - intros count Hcount Hsome Hpos.
    unfold deletion_candidates, py_get, py_get_default.
    rewrite Hcount, Hpos. simpl. by rewrite Hsome.
Qed.

Lemma count_without_position_selects_oldest_witness :
  let e := Scenario.quiet "2024-05-04T09:00:00" 4000 in
  deletion_candidates e "alice" Scenario.scope_count_only Scenario.three_expenses
  = first_count (JInt 1)
      (sorted_by oldest_first (get_all_user_expenses e "alice" Scenario.three_expenses)).
Proof.
  intros e.
  apply (proj2 (count_without_position_selects_oldest DecFloat DecFloatLaws SampleJson
                  "delete 1 expense" (ResponseText Samples.doc_count_only)
                  e "alice" Scenario.three_expenses) (JInt 1));
    reflexivity.
Defined.

(** The failing run: Alice has expenses of 1, 2 and 3 May; the scope has
    count 1 and no position; the snapshot holds the record of 1 May, the
    oldest one, and not that of 3 May. *)
Example count_without_position_snapshot :
  let e := Scenario.answering (ResponseText Samples.doc_count_only)
             (Scenario.quiet "2024-05-04T09:00:00" 4000) in
  let w := (lambda_handler e (Update (Scenario.from_alice "delete 1 expense" (Some 4%Z)))
              Scenario.three_expenses).2 in
  expenses_to_delete <$> (deletion_confirmations w !! "alice")
  = Some ["EXP#alice#2024-05-01T09:00:00"].
Proof. reflexivity. Qed.

(** * Further properties of the handler *)

Section Replies.
Context {PF : PyFloat} {PL : PyFloatLaws PF} {JL : JsonLoads}.





(** The session dict changes at the sender's key only. *)
Lemma route_other_sessions e chat_id message_id username text w u :
  u <> username ->
  deletion_confirmations (route e chat_id message_id username text w).2 !! u
  = deletion_confirmations w !! u.
Proof.
  intros Hu. unfold route.
  destruct (is_deletion_confirmation_world e username text w) as (_ & _ & Hd).
  destruct (is_deletion_confirmation e username text w) as [confirmation w'].
  simpl in Hd.
  assert (Hw' : deletion_confirmations w' !! u = deletion_confirmations w !! u).
  { destruct Hd as [->| ->]; [done|]. by rewrite lookup_delete_ne. }
  rewrite <- Hw'. destruct confirmation; simpl.
  - destruct (handle_deletion_confirmation_world e chat_id message_id username text w')
      as ([->| ->] & _); [done|]. by rewrite lookup_delete_ne.
  - destruct (is_deletion_request text); simpl.
    + destruct (handle_deletion_request_world e chat_id message_id username
                  (extract_deletion_time_range text (classifier e)) w')
        as (_ & [->|(l & _ & _ & ->)]); [done|]. by rewrite lookup_insert_ne.
    + destruct (is_expense_query text); simpl; [done|].
      by rewrite (proj1 (handle_entry_world e chat_id message_id username text w')).
Qed.

Lemma strip_empty_iff s : strip s = EmptyString <-> all_chars is_space s = true.
Proof.
  unfold strip. induction s as [|c s IH]; [done|]. simpl.
  destruct (is_space c) eqn:E; [exact IH|].
  split; [|done]. unfold rstrip. simpl. rewrite E.
  by destruct (rstrip_with is_space s).
Qed.

End Replies.

(** X1. The status of an invocation: a message without chat id, with chat
    id 0, or whose text is missing, empty or all whitespace is answered 400
    "Invalid request", and nothing is written or sent; every other message
    is answered 200, whichever lane handles it and whether or not its calls
    to the store and to the classifier succeed.  The text is ASCII. *)
Theorem lambda_handler_status :
  forall (PF : PyFloat) (PL : PyFloatLaws PF) (JL : JsonLoads) e m w,
    is_ascii (default EmptyString (m_text m)) = true ->
    let blank :=
      m_chat_id m = None \/ m_chat_id m = Some 0%Z
      \/ all_chars is_space (default EmptyString (m_text m)) = true in
    (blank ->
     lambda_handler e (Update m) w
     = ({| statusCode := 400; body := "Invalid request" |}, w))
    /\ (~ blank -> statusCode (lambda_handler e (Update m) w).1 = 200%Z).
Proof.
  intros PF PL JL e m w _ blank.
  assert (Hacc : accepted m = false <-> blank).
  { unfold blank, accepted, text_of. rewrite <- strip_empty_iff.
    destruct (m_chat_id m) as [chat_id|].
    - rewrite negb_false_iff, orb_true_iff, Z.eqb_eq. split.
      + intros [->|H]; [by auto|]. right; right.
        by destruct (strip (default EmptyString (m_text m))).
      + intros [?|[[= ->]| ->]]; [done|by left|by right].
    - split; [by auto|done]. }
  split.
  - intros H%Hacc. by apply lambda_handler_rejected.
  - intros Hn. destruct (accepted m) eqn:E; [|by destruct Hn; apply Hacc].
    destruct (lambda_handler_accepted e m w E) as (chat_id & _ & ->).
    destruct (check_if_processed e (message_id_of m) w); [done|].
    apply route_status.
Qed.

Lemma lambda_handler_status_witness :
  let e := Scenario.quiet "2024-05-01T09:00:00" 1000 in
  lambda_handler e (Update (Scenario.from_alice "   " (Some 1%Z))) initial_world
  = ({| statusCode := 400; body := "Invalid request" |}, initial_world)
  /\ statusCode (lambda_handler e (Update (Scenario.from_alice "taxi 300" (Some 1%Z)))
                   initial_world).1 = 200%Z.
Proof.
  intros e. split.
  - apply (proj1 (lambda_handler_status DecFloat DecFloatLaws SampleJson e
                    (Scenario.from_alice "   " (Some 1%Z)) initial_world eq_refl)).
    right; right. reflexivity.
  - apply (proj2 (lambda_handler_status DecFloat DecFloatLaws SampleJson e
                    (Scenario.from_alice "taxi 300" (Some 1%Z)) initial_world eq_refl)).
    intros [H|[H|H]]; discriminate H.
Defined.



(** X3. Handling a message changes the session dict at most at the key of
    its sender: the pending session of every other user is as before. *)
Theorem lambda_handler_other_sessions :
  forall (PF : PyFloat) (PL : PyFloatLaws PF) (JL : JsonLoads) e m w u,
    u <> username_of m ->
    deletion_confirmations (lambda_handler e (Update m) w).2 !! u
    = deletion_confirmations w !! u.
Proof.
  intros PF PL JL e m w u Hu. destruct (accepted m) eqn:Hacc.
  - destruct (lambda_handler_accepted e m w Hacc) as (chat_id & _ & ->).
    destruct (check_if_processed e (message_id_of m) w); [done|].
    by rewrite route_other_sessions, mark_as_processed_confirmations.
  - by rewrite lambda_handler_rejected.
Qed.

Lemma lambda_handler_other_sessions_witness :
  deletion_confirmations
    (lambda_handler (Scenario.quiet "2024-05-04T09:02:00" 4100)
       (Update (Scenario.from_bob "cancel" (Some 9%Z)))
       Scenario.pending_first_two).2 !! "alice"
  = deletion_confirmations Scenario.pending_first_two !! "alice".
Proof.
  apply (lambda_handler_other_sessions DecFloat DecFloatLaws SampleJson).
  discriminate.
Defined.

(** * The amount parser without a unit *)

Section PlainAmount.
Context {PF : PyFloat} {PL : PyFloatLaws PF}.

Lemma rstrip_with_prefix p s : exists tail, s = rstrip_with p s +:+ tail.
Proof.
  induction s as [|c s [tail IH]]; [by exists EmptyString|]. simpl.
  destruct (rstrip_with p s) as [|d r] eqn:E.
  - destruct (p c).
    + by exists (String c s).
    + exists s. by rewrite TextFacts.app_cons, TextFacts.app_nil_l.
  - exists tail. by rewrite TextFacts.app_cons, <- IH.
Qed.

Lemma startswith_app u a b : startswith u a = true -> startswith u (a +:+ b) = true.
Proof.
  revert a. induction u as [|c u IH]; intros a; [done|].
  destruct a as [|d a]; [done|]. rewrite TextFacts.app_cons. simpl.
  intros [-> H]%andb_prop. simpl. by apply IH.
Qed.

Lemma startswith_rstrip u s :
  startswith u s = false -> startswith u (rstrip s) = false.
Proof.
  intros H. destruct (startswith u (rstrip s)) eqn:E; [|done].
  destruct (rstrip_with_prefix is_space s) as [tail Ht].
  rewrite Ht in H. unfold rstrip in E. by rewrite (startswith_app _ _ tail E) in H.
Qed.

Lemma lower_idemp s : lower (lower s) = lower s.
Proof.
  induction s as [|c s IH]; [done|]. simpl.
  by rewrite TextFacts.lower_char_idemp, IH.
Qed.

Lemma lower_rstrip s : lower (rstrip s) = rstrip (lower s).
Proof.
  unfold rstrip. induction s as [|c s IH]; [done|]. simpl.
  rewrite <- IH, TextFacts.is_space_lower_char.
  destruct (rstrip_with is_space s); simpl; [by destruct (is_space c)|done].
Qed.

Lemma rstrip_all_space s : all_chars is_space s = true -> rstrip s = EmptyString.
Proof.
  unfold rstrip. induction s as [|c s IH]; [done|]. simpl.
  intros [Hc Hs]%andb_prop. by rewrite IH, Hc.
Qed.

Lemma rstrip_app_fixed a b : rstrip a = a -> rstrip (a +:+ b) = a +:+ rstrip b.
Proof.
  intros Ha. unfold rstrip in *. rewrite rstrip_with_app_cases.
  destruct (rstrip_with is_space b); [|done].
  by rewrite Ha, TextFacts.app_nil_r.
Qed.

Lemma plain_head_rstrip t : plain_head t = true -> plain_head (rstrip t) = true.
Proof.
  unfold plain_head. intros H%negb_true_iff. apply negb_true_iff.
  by apply TextFacts.rstrip_with_head.
Qed.

(** Under [re.IGNORECASE] a lower-case literal matches a lower-case text
    exactly where the text starts with it. *)
Lemma match_literal_ci_none lit s :
  lower lit = lit -> lower s = s ->
  startswith lit s = false -> match_literal_ci lit s = None.
Proof.
  revert s. induction lit as [|a lit IH]; intros s Hlit Hs; [done|].
  destruct s as [|b s]; [done|]. simpl in *.
  injection Hlit as Ha Hlit. injection Hs as Hb Hs. rewrite Ha, Hb.
  destruct (Ascii.eqb a b); simpl; [|done].
  intros H. by rewrite (IH s Hlit Hs H).
Qed.

Lemma match_alternation_ci_none_of alts s :
  lower s = s ->
  (forall u, u ∈ alts -> lower u = u /\ startswith u s = false) ->
  match_alternation_ci alts s = None.
Proof.
  intros Hs. induction alts as [|a alts IH]; intros Hno; [done|]. simpl.
  destruct (Hno a) as [Ha Hsw]; [by left|].
  rewrite (match_literal_ci_none a s Ha Hs Hsw).
  apply IH. intros u Hu. apply Hno. by right.
Qed.

Lemma match_alternation_ci_none s :
  lower s = s ->
  (forall u, u ∈ unit_alternatives -> startswith u s = false) ->
  match_alternation_ci unit_alternatives s = None.
Proof.
  intros Hs Hno. apply match_alternation_ci_none_of; [done|].
  intros u Hu. split; [|by apply Hno].
  unfold unit_alternatives in Hu.
  repeat (apply elem_of_cons in Hu as [->|Hu]; [reflexivity|]).
  by apply elem_of_nil in Hu.
Qed.

(** What is left of the text after the number once the whole text is
    stripped: whitespace and a text that starts with no unit token. *)
Lemma rest_after_number ws t :
  all_chars is_space ws = true -> lower t = t -> plain_head t = true ->
  (forall u, u ∈ unit_alternatives -> startswith u t = false) ->
  exists ws' t',
    rstrip (ws +:+ t) = ws' +:+ t'
    /\ all_chars is_space ws' = true /\ plain_head t' = true
    /\ match_alternation_ci unit_alternatives t' = None.
Proof.
  intros Hws Hlow Hplain Hno. unfold rstrip. rewrite rstrip_with_app_cases.
  destruct (rstrip_with is_space t) as [|d r] eqn:E.
  - exists EmptyString, EmptyString. fold (rstrip ws).
    by rewrite (rstrip_all_space ws Hws).
  - exists ws, (String d r). rewrite <- E. fold (rstrip t).
    split; [done|]. split; [done|]. split; [by apply plain_head_rstrip|].
    apply match_alternation_ci_none.
    + by rewrite lower_rstrip, Hlow.
    + intros u Hu. by apply startswith_rstrip, Hno.
Qed.

End PlainAmount.

(** X4. When the first number of a text is followed, after optional
    whitespace, by a rest that (commas removed, lower-cased) starts with
    neither digit, dot nor whitespace and with none of the unit tokens, or
    by nothing at all, [extract_inr_amount] returns [float] of the number
    itself, without any multiplier.  The text before and after the number
    is ASCII. *)
Theorem extract_inr_amount_without_unit :
  forall (PF : PyFloat) (PL : PyFloatLaws PF) pre ds frac ws rest,
    is_ascii pre = true -> is_ascii rest = true ->
    no_digit pre = true ->
    ds <> EmptyString -> all_chars is_digit ds = true ->
    is_fraction frac = true ->
    all_chars is_space ws = true ->
    plain_head (lower (remove_char ","%char rest)) = true ->
    (forall u, u ∈ unit_alternatives ->
               startswith u (lower (remove_char ","%char rest)) = false) ->
    is_Some (float_of_str (ds +:+ frac))
    /\ extract_inr_amount (pre +:+ ds +:+ frac +:+ ws +:+ rest)
       = float_of_str (ds +:+ frac).
Proof.
  intros PF PL pre ds frac ws rest _ _ Hpre Hne Hds Hfrac Hws Hplain Hno.
  split; [by apply float_of_str_literal|].
  set (t := lower (remove_char ","%char rest)) in *.
  destruct (rest_after_number ws t Hws (lower_idemp _) Hplain Hno)
    as (ws' & t' & Hr & Hws' & Hplain' & Hnone).
  unfold extract_inr_amount.
  rewrite !TextFacts.remove_char_app, !TextFacts.lower_app.
  rewrite (TextFacts.remove_comma_digits ds), (TextFacts.lower_digits ds) by done.
  rewrite (TextFacts.remove_comma_spaces ws), (TextFacts.lower_spaces ws) by done.
  rewrite (fraction_fixed frac) by done.
  fold t. unfold strip.
  rewrite TextFacts.lstrip_app.
  2:{ destruct ds as [|d ds]; [done|]. simpl in *.
      apply andb_prop in Hds as [Hd _].
      by rewrite (TextFacts.digit_not_space d Hd). }
  set (p := lstrip (lower (remove_char ","%char pre))).
  assert (Hnum : rstrip (ds +:+ frac) = ds +:+ frac).
  { apply TextFacts.rstrip_no_space. rewrite TextFacts.all_chars_app.
    by rewrite TextFacts.digits_no_space, TextFacts.fraction_no_space. }
  assert (Hstrip : rstrip (p +:+ ds +:+ frac +:+ ws +:+ t)
                   = p +:+ ds +:+ frac +:+ ws' +:+ t').
  { rewrite <- (TextFacts.app_assoc ds frac), <- (TextFacts.app_assoc p).
    rewrite rstrip_app_fixed.
    - by rewrite Hr, !TextFacts.app_assoc.
    - apply rstrip_app_eq; [exact Hnum | by destruct ds]. }
  rewrite Hstrip, search_amount_skip.
  2:{ apply TextFacts.no_digit_lstrip. rewrite TextFacts.no_digit_lower.
      by apply TextFacts.no_digit_remove_char. }
  rewrite (search_amount_at _ _
             (match_amount_at_number ds frac ws' t' Hne Hds Hfrac Hws' Hplain')).
  cbn [group1 group3]. rewrite Hnone.
  by destruct (float_of_str (ds +:+ frac)).
Qed.

Lemma extract_inr_amount_without_unit_witness :
  is_Some (float_of_str (PyFloat := DecFloat) ("12" +:+ ".50"))
  /\ extract_inr_amount (PF := DecFloat)
       ("Paid " +:+ "12" +:+ ".50" +:+ " " +:+ "for tea, twice ")
     = float_of_str ("12" +:+ ".50").
Proof.
  apply (extract_inr_amount_without_unit DecFloat DecFloatLaws
           "Paid " "12" ".50" " " "for tea, twice ");
    [reflexivity | reflexivity | reflexivity | discriminate | reflexivity
    | reflexivity | reflexivity | reflexivity |].
  intros u Hu. unfold unit_alternatives in Hu.
  repeat (apply elem_of_cons in Hu as [->|Hu]; [reflexivity|]).
  by apply elem_of_nil in Hu.
Defined.

(** * What the handler writes *)

Section Writes.
Context {PF : PyFloat} {PL : PyFloatLaws PF} {JL : JsonLoads}.

Lemma store_user_expense_lookup e username a original_text w k it :
  table (store_user_expense e username a original_text w) !! k = Some it ->
  table w !! k = Some it
  \/ exists amount,
       k = "EXP#" +:+ username +:+ "#" +:+ utcnow e
       /\ it = Expense username (utcnow e) amount (a_category a) original_text.
Proof.
  unfold store_user_expense.
  destruct (float_of_str _) as [amount|]; [|by auto].
  destruct (float_le0 amount); [by auto|].
  destruct (put_expense_ok e); [|by auto]. simpl.
  rewrite lookup_insert. case_decide as Hk; [|by auto].
  intros [= <-]. right. by exists amount.
Qed.

Lemma handle_entry_lookup e chat_id message_id username text w k it :
  table (handle_entry e chat_id message_id username text w).2 !! k = Some it ->
  table w !! k = Some it \/ item_keyed k it /\ it <> Marker (utcnow e).
Proof.
  unfold handle_entry.
  destruct (negb (mentions_listing text)); [|by auto].
  destruct (negb (is_empty _) && _); [|by auto].
  destruct (float_of_str _) as [amount|]; [|by auto].
  destruct (float_gt0 amount); [|by auto]. simpl.
  intros [H|(x & -> & ->)]%store_user_expense_lookup; [by auto|].
  right. by split.
Qed.

Lemma route_lookup e chat_id message_id username text w k it :
  table (route e chat_id message_id username text w).2 !! k = Some it ->
  table w !! k = Some it \/ item_keyed k it.
Proof.
  unfold route.
  destruct (is_deletion_confirmation_world e username text w) as (Htab & _ & _).
  destruct (is_deletion_confirmation e username text w) as [confirmation w'].
  simpl in Htab. rewrite <- Htab. destruct confirmation; simpl.
  - intros H. left.
    by apply (handle_deletion_confirmation_world e chat_id message_id username text w').
  - destruct (is_deletion_request text); simpl.
    + rewrite (proj1 (handle_deletion_request_world e chat_id message_id username
                        (extract_deletion_time_range text (classifier e)) w')).
      by auto.
    + destruct (is_expense_query text); simpl; [by auto|].
      intros [?|[? _]]%handle_entry_lookup; by auto.
Qed.

Lemma mark_as_processed_lookup e message_id w k it :
  table (mark_as_processed e message_id w) !! k = Some it ->
  table w !! k = Some it \/ item_keyed k it.
Proof.
  unfold mark_as_processed. destruct (put_marker_ok e); [|by auto]. simpl.
  rewrite lookup_insert. case_decide as Hk; [|by auto].
  intros [= <-]. right. subst k. by exists message_id.
Qed.

Lemma lambda_handler_lookup e ev w k it :
  table (lambda_handler e ev w).2 !! k = Some it ->
  table w !! k = Some it \/ item_keyed k it.
Proof.
  destruct ev as [|m]; [by auto|]. destruct (accepted m) eqn:Hacc.
  - destruct (lambda_handler_accepted e m w Hacc) as (chat_id & _ & ->).
    destruct (check_if_processed e (message_id_of m) w); [by auto|].
    intros [H|H]%route_lookup; [|by auto].
    by apply mark_as_processed_lookup in H.
  - rewrite lambda_handler_rejected by done. by auto.
Qed.

(** The three outcomes of [store_user_expense]. *)
Lemma store_user_expense_cases e username a original_text w :
  (forall amount,
      float_of_str (remove_char ","%char (a_amount a)) = Some amount ->
      float_le0 amount = false -> put_expense_ok e = true ->
      store_user_expense e username a original_text w
      = with_table w
          (<["EXP#" +:+ username +:+ "#" +:+ utcnow e
             := Expense username (utcnow e) amount (a_category a) original_text]>
             (table w)))
  /\ (float_of_str (remove_char ","%char (a_amount a)) = None ->
      store_user_expense e username a original_text w = w)
  /\ (put_expense_ok e = false ->
      store_user_expense e username a original_text w = w).
Proof.
  unfold store_user_expense. split; [|split].
  - by intros amount -> -> ->.
  - by intros ->.
  - intros ->. destruct (float_of_str _) as [amount|]; [|done].
    by destruct (float_le0 amount).
Qed.








End Writes.

(** X5. Key discipline: in every state the handler reaches from the empty
    store, an expense record sits under the key EXP#<user>#<timestamp> made
    of its own user and timestamp, and a marker sits under a key MSG#<id>. *)
Theorem reachable_items_are_keyed :
  forall (PF : PyFloat) (PL : PyFloatLaws PF) (JL : JsonLoads) w k it,
    reachable w -> table w !! k = Some it -> item_keyed k it.
Proof.
  intros PF PL JL w k it Hreach. revert k it.
  induction Hreach as [|e ev w Hreach IH]; intros k it.
  - simpl. by rewrite lookup_empty.
  - intros [H|H]%lambda_handler_lookup; [by apply IH|done].
Qed.

Lemma reachable_items_are_keyed_witness :
  item_keyed (PF := DecFloat) "EXP#alice#2024-05-02T09:00:00"
    (Expense "alice" "2024-05-02T09:00:00" (Dec.Decimal 1200 0) "Groceries"
       "paid 1200 for groceries").
Proof.
  apply (reachable_items_are_keyed DecFloat DecFloatLaws SampleJson
           Scenario.three_expenses).
  - do 3 apply reach_step. apply reach_here.
  - reflexivity.
Defined.

(** X6. Markers are never deleted: a marker that is in the table of a
    reachable state is in the table of every state reached from it. *)
Theorem markers_persist :
  forall (PF : PyFloat) (PL : PyFloatLaws PF) (JL : JsonLoads) w0 w message_id,
    reachable w0 -> reachable_from w0 w ->
    is_Some (table w0 !! marker_key message_id) ->
    is_Some (table w !! marker_key message_id).
Proof.
  intros PF PL JL w0 w message_id Hreach. apply reachable_from_keeps_marker.
  by apply reachable_invariant.
Qed.

Lemma markers_persist_witness :
  is_Some (table Scenario.pending_and_one_more !! marker_key "1").
Proof.
  apply (markers_persist DecFloat DecFloatLaws SampleJson Scenario.three_expenses).
  - do 3 apply reach_step. apply reach_here.
  - do 2 apply reach_step. apply reach_here.
  - exists (Marker "2024-05-01T09:00:00"). reflexivity.
Defined.



(** X8. [store_user_expense], when the amount text is a number that does
    not satisfy [amount <= 0] and the write succeeds, leaves under
    EXP#<user>#<now> the record with that user, timestamp and amount, the
    category of the analysis and the original text as description, replacing
    what was under that key; every other key, the sessions and the outbox are
    as before.  When the amount text is no number, or the write raises, the
    world is unchanged. *)
Theorem store_user_expense_writes_the_record :
  forall (PF : PyFloat) (PL : PyFloatLaws PF) (JL : JsonLoads)
         e username a original_text w,
    let w' := store_user_expense e username a original_text w in
    let key := "EXP#" +:+ username +:+ "#" +:+ utcnow e in
    (forall amount,
        float_of_str (remove_char ","%char (a_amount a)) = Some amount ->
        float_le0 amount = false -> put_expense_ok e = true ->
        table w' !! key
        = Some (Expense username (utcnow e) amount (a_category a) original_text)
        /\ (forall k, k <> key -> table w' !! k = table w !! k)
        /\ deletion_confirmations w' = deletion_confirmations w
        /\ outbox w' = outbox w)
    /\ (float_of_str (remove_char ","%char (a_amount a)) = None -> w' = w)
    /\ (put_expense_ok e = false -> w' = w).
Proof.
  intros PF PL JL e username a original_text w w' key.
  destruct (store_user_expense_cases e username a original_text w)
    as (Hok & Hnan & Hfail).
  split; [|split; [exact Hnan | exact Hfail]].
  intros amount Ha Hle Hput. unfold w'. rewrite (Hok amount Ha Hle Hput). simpl.
  split; [by rewrite lookup_insert_eq|].
  split; [|done]. intros k Hk. by rewrite lookup_insert_ne.
Qed.

Lemma store_user_expense_writes_the_record_witness :
  let e := Scenario.quiet "2024-05-01T09:00:00" 1000 in
  table (store_user_expense (PF := DecFloat) e "alice"
           {| a_amount := "1,500"; a_category := "Bills"; a_message := JNull |}
           "paid 1,500 electricity bill" initial_world)
    !! "EXP#alice#2024-05-01T09:00:00"
  = Some (Expense "alice" "2024-05-01T09:00:00" (Dec.Decimal 1500 0) "Bills"
            "paid 1,500 electricity bill").
Proof.
  intros e.
  apply (proj1 (store_user_expense_writes_the_record DecFloat DecFloatLaws SampleJson
                  e "alice"
                  {| a_amount := "1,500"; a_category := "Bills"; a_message := JNull |}
                  "paid 1,500 electricity bill" initial_world)
           (Dec.Decimal 1500 0));
    reflexivity.
Defined.



(** * Listing and selecting records *)

Section Listing.
Context {PF : PyFloat} {PL : PyFloatLaws PF} {JL : JsonLoads}.

Lemma is_expense_of_inv username (r : row) :
  is_expense_of username r = true <->
  exists timestamp amount category description,
    r.2 = Expense username timestamp amount category description.
Proof.
  unfold is_expense_of. destruct r.2 as [|u ts a c d]; split.
  - done.
  - by intros (?&?&?&?&?).
  - intros ->%String.eqb_eq. by repeat eexists.
  - intros (?&?&?&?&[= -> _ _ _ _]). apply String.eqb_refl.
Qed.

Lemma newest_first_total x y : newest_first x y = true \/ newest_first y x = true.
Proof. apply String.leb_total. Qed.

Lemma newest_first_trans x y z :
  newest_first x y = true -> newest_first y z = true -> newest_first x z = true.
Proof.
  unfold newest_first. intros H1 H2. apply Is_true_true.
  apply Is_true_true in H1, H2.
  exact (transitivity (R := String.le) H2 H1).
Qed.

Lemma first_count_nonnegative {A} n (l : list A) :
  first_count (JInt (Z.of_nat n)) l = Ok (take n l).
Proof.
  unfold first_count, slice_to.
  destruct (Z.of_nat (length l) <? Z.of_nat n)%Z eqn:E.
  - apply Z.ltb_lt in E.
    assert ((0 <=? Z.of_nat (length l))%Z = true) as -> by (apply Z.leb_le; lia).
    rewrite Nat2Z.id. f_equal. rewrite !take_ge; [done|lia..].
  - assert ((0 <=? Z.of_nat n)%Z = true) as -> by (apply Z.leb_le; lia).
    by rewrite Nat2Z.id.
Qed.

Lemma first_count_negative {A} c (l : list A) :
  (c < 0)%Z ->
  first_count (JInt c) l = Ok (take (length l - Z.to_nat (- c)) l).
Proof.
  intros Hc. unfold first_count, slice_to.
  assert ((Z.of_nat (length l) <? c)%Z = false) as -> by (apply Z.ltb_ge; lia).
  assert ((0 <=? c)%Z = false) as -> by (apply Z.leb_gt; lia).
  do 2 f_equal. lia.
Qed.

(** The scope dict of a classifier call that produced no object. *)
Lemma extract_deletion_time_range_fallback text o :
  (forall data, extracted_object o <> Ok (Some data)) ->
  extract_deletion_time_range text o
  = <["days" := JNull]> (<["description" := JStr "all expenses"]>
      (<["count" := JNull]> (<["position" := JNull]> ∅))).
Proof.
  intros Hno. unfold extract_deletion_time_range.
  destruct (extracted_object o) as [[data|]|]; [|done..].
  by destruct (Hno data).
Qed.

Lemma deletion_candidates_all e username (time_range : gmap string json) w :
  py_get time_range "count" = JNull -> py_get time_range "days" = JNull ->
  deletion_candidates e username time_range w
  = Ok (get_all_user_expenses e username w).
Proof. intros Hc Hd. unfold deletion_candidates. by rewrite Hc, Hd. Qed.

End Listing.

(** X10. For a scope that holds a description, a query lists exactly the
    records of the asking user that are EXPENSE items with a timestamp not
    before the start of the window and with [amount > 0]; when the scan
    raises, when the window cannot be computed from [days], or when the
    scope holds no description (the log line after the scan raises), it
    lists nothing. *)
Theorem get_user_expenses_lists_exactly :
  forall (PF : PyFloat) (PL : PyFloatLaws PF) (JL : JsonLoads)
         e username (time_range : gmap string json) w,
    (forall start_time description,
        days_ago e (py_get_default time_range "days" (JInt 7)) = Some start_time ->
        scan_ok e = true ->
        time_range !! "description" = Some description ->
        forall k it,
          (k, it) ∈ get_user_expenses e username time_range w <->
          table w !! k = Some it
          /\ exists timestamp amount category description,
               it = Expense username timestamp amount category description
               /\ String.le start_time timestamp
               /\ float_gt0 amount = true)
    /\ (scan_ok e = false -> get_user_expenses e username time_range w = [])
    /\ (days_ago e (py_get_default time_range "days" (JInt 7)) = None ->
        get_user_expenses e username time_range w = [])
    /\ (time_range !! "description" = None ->
        get_user_expenses e username time_range w = []).
Proof.
  intros PF PL JL e username time_range w. unfold get_user_expenses.
  split; [|split; [|split]].
  - intros start_time description Hd Hs Hdesc k it. rewrite Hd, Hs, Hdesc.
    rewrite (elem_of_scan _ (table w) (k, it)).
    unfold is_expense_of, row_timestamp, positive_amount. simpl. split.
    + intros (Hk & H). split; [done|].
      destruct it as [|u ts a c d]; [done|].
      apply andb_prop in H as [[Hu Hts]%andb_prop Hpos].
      apply String.eqb_eq in Hu as ->. exists ts, a, c, d.
      split; [done|]. split; [by apply Is_true_true|done].
    + intros (Hk & ts & a & c & d & -> & Hts & Hpos). split; [done|].
      rewrite String.eqb_refl, Hpos. simpl. rewrite andb_true_r.
      by apply Is_true_true.
  - intros ->. by destruct (days_ago e _).
  - by intros ->.
  - intros ->. destruct (days_ago e _); [|done]. by destruct (scan_ok e).
Qed.

Lemma get_user_expenses_lists_exactly_witness :
  let e := {| get_item_ok := true; put_marker_ok := true; put_expense_ok := true;
              scan_ok := true; delete_fails_at := None;
              utcnow := "2024-05-04T09:00:00";
              days_ago := fun _ => Some "2024-05-02T00:00:00";
              time_now := 4000; uuid4 := EmptyString; classifier := NetworkError |} in
  ("EXP#alice#2024-05-03T09:00:00",
   Expense "alice" "2024-05-03T09:00:00" (Dec.Decimal 300 0) "Transport" "taxi 300")
  ∈ get_user_expenses (PF := DecFloat) e "alice"
      (extract_time_range_from_query (JL := SampleJson) "show my expenses" NetworkError)
      Scenario.three_expenses.
Proof.
  intros e.
  apply (proj1 (get_user_expenses_lists_exactly DecFloat DecFloatLaws SampleJson
                  e "alice"
                  (extract_time_range_from_query "show my expenses" NetworkError)
                  Scenario.three_expenses) "2024-05-02T00:00:00"
           (JStr "recent expenses") eq_refl eq_refl eq_refl).
  split; [reflexivity|].
  exists "2024-05-03T09:00:00", (Dec.Decimal 300 0), "Transport", "taxi 300".
  split; [reflexivity|]. split; [|reflexivity]. by apply Is_true_true.
Defined.

(** X11. When the classifier call of a deletion request fails (network error,
    timeout, a status that is not 2xx, an unreadable envelope, no brace span,
    a span that is no JSON object), the scope is the default "all expenses":
    the candidates of the request are all records of the user, whatever the
    text asked for. *)
Theorem deletion_scope_defaults_to_all :
  forall (PF : PyFloat) (PL : PyFloatLaws PF) (JL : JsonLoads) text o e username w,
    (forall data, extracted_object o <> Ok (Some data)) ->
    extract_deletion_time_range text o !! "description" = Some (JStr "all expenses")
    /\ deletion_candidates e username (extract_deletion_time_range text o) w
       = Ok (get_all_user_expenses e username w).
Proof.
  intros PF PL JL text o e username w Hno.
  rewrite (extract_deletion_time_range_fallback text o Hno).
  split; [by simplify_map_eq|]. by apply deletion_candidates_all.
Qed.

Lemma deletion_scope_defaults_to_all_witness :
  let e := Scenario.quiet "2024-05-04T09:00:00" 4000 in
  deletion_candidates (PF := DecFloat) e "alice"
    (extract_deletion_time_range (JL := SampleJson) "delete my last expense" Timeout)
    Scenario.three_expenses
  = Ok (get_all_user_expenses e "alice" Scenario.three_expenses).
Proof.
  intros e.
  apply (deletion_scope_defaults_to_all DecFloat DecFloatLaws SampleJson
           "delete my last expense" Timeout e "alice" Scenario.three_expenses).
  intros data. discriminate.
Defined.

(** X12. A deletion request with position "last" and a count [n] that is a
    natural number selects the first [n] records of the user in descending
    order of timestamp: no record of the user outside the selection is more
    recent than one inside. *)
Theorem last_position_selects_most_recent :
  forall (PF : PyFloat) (PL : PyFloatLaws PF) (JL : JsonLoads)
         e username (time_range : gmap string json) w n,
    time_range !! "count" = Some (JInt (Z.of_nat n)) ->
    time_range !! "position" = Some (JStr "last") ->
    let all := get_all_user_expenses e username w in
    let chosen := take n (sorted_by newest_first all) in
    deletion_candidates e username time_range w = Ok chosen
    /\ length chosen = Nat.min n (length all)
    /\ (forall r r', r ∈ chosen -> r' ∈ all -> r' ∉ chosen ->
          String.le (row_timestamp r') (row_timestamp r)).
Proof.
  intros PF PL JL e username time_range w n Hcount Hpos all chosen.
  split; [|split].
  - unfold deletion_candidates, py_get, py_get_default. rewrite Hcount, Hpos.
    simpl. apply first_count_nonnegative.
  - unfold chosen. rewrite length_take.
    by rewrite (Permutation_length (sorted_by_perm newest_first all)).
  - intros r r' Hr Hr' Hout. apply Is_true_true.
    apply (sorted_take_drop newest_first n (sorted_by newest_first all)); [|done|].
    + apply sorted_by_sorted; [apply newest_first_total|apply newest_first_trans].
    + rewrite <- (sorted_by_perm newest_first) in Hr'.
      rewrite <- (take_drop n (sorted_by newest_first all)) in Hr'.
      apply elem_of_app in Hr' as [?|?]; done.
Qed.

Lemma last_position_selects_most_recent_witness :
  let e := Scenario.quiet "2024-05-04T09:00:00" 4000 in
  let time_range : gmap string json :=
    <["count" := JInt 1]> (<["position" := JStr "last"]> ∅) in
  row_id <$> take 1 (sorted_by newest_first
                       (get_all_user_expenses (PF := DecFloat) e "alice"
                          Scenario.three_expenses))
  = ["EXP#alice#2024-05-03T09:00:00"]
  /\ deletion_candidates e "alice" time_range Scenario.three_expenses
     = Ok (take 1 (sorted_by newest_first
                     (get_all_user_expenses e "alice" Scenario.three_expenses))).
Proof.
  intros e time_range. split; [reflexivity|].
  apply (last_position_selects_most_recent DecFloat DecFloatLaws SampleJson
           e "alice" time_range Scenario.three_expenses 1); reflexivity.
Defined.

(** * Deletion requests and confirmations at their edges *)

Section Requests.
Context {PF : PyFloat} {PL : PyFloatLaws PF} {JL : JsonLoads}.

Lemma handle_deletion_request_raise e chat_id message_id username time_range w :
  deletion_candidates e username time_range w = Raise ->
  handle_deletion_request e chat_id message_id username time_range w
  = send_telegram_reply chat_id message_id
      (Plain "I encountered an error processing your deletion request. Please try again.")
      w.
Proof. intros E. unfold handle_deletion_request. by rewrite E. Qed.

Lemma handle_deletion_request_empty e chat_id message_id username time_range w :
  deletion_candidates e username time_range w = Ok [] ->
  handle_deletion_request e chat_id message_id username time_range w
  = send_telegram_reply chat_id message_id
      (Plain "You don't have any expenses to delete.") w.
Proof. intros E. unfold handle_deletion_request. by rewrite E. Qed.


Lemma first_count_nil {A} count (l : list A) :
  first_count count [] = Ok l -> l = [].
Proof.
  intros H%first_count_subseteq. destruct l as [|x l]; [done|].
  by destruct (not_elem_of_nil x); apply H; left.
Qed.

Lemma deletion_candidates_no_scan e username time_range w l :
  scan_ok e = false ->
  deletion_candidates e username time_range w = Ok l -> l = [].
Proof.
  intros Hscan. unfold deletion_candidates, get_all_user_expenses,
    get_user_expenses_for_deletion. rewrite Hscan.
  destruct (negb (is_none (py_get time_range "count"))).
  - destruct (time_range !! "count") as [count|]; [|done].
    cbn [of_option mbind result_bind].
    destruct (is_last _); simpl; apply first_count_nil.
  - destruct (negb (is_none (py_get time_range "days"))).
    + destruct (time_range !! "days") as [days|]; [|done].
      cbn [of_option mbind result_bind].
      destruct (days_ago e days); [|done].
      cbn [of_option mbind result_bind]. by intros [= <-].
    + by intros [= <-].
Qed.

(** The loop of [delete_specific_expenses] when call [i] raises: the ids
    before it are deleted, the exception is re-raised when there is a call
    [i] at all. *)
Lemma delete_specific_fails i ids (t : gmap string item) :
  delete_specific_expenses (Some i) ids t
  = (if bool_decide (i < length ids) then Raise else Ok (length ids),
     (delete_specific_expenses None (take i ids) t).2).
Proof.
  revert i t. induction ids as [|id ids IH]; intros i t.
  - rewrite take_nil. cbn [delete_specific_expenses length snd].
    by rewrite bool_decide_eq_false_2 by lia.
  - destruct i as [|i]; cbn [delete_specific_expenses length take fmap option_fmap option_map pred].
    + by rewrite bool_decide_eq_true_2 by lia.
    + rewrite IH.
      destruct (delete_specific_expenses None (take i ids) (delete id t)) as [r t'].
      cbn [snd fst]. f_equal.
      case_bool_decide; case_bool_decide; try lia; done.
Qed.




End Requests.

(** X13. A count that the classifier returned as a string, a list or an
    object makes [min(count, len(...))] raise: the request is answered with
    the error text, and neither the table nor the sessions change. *)
Theorem count_of_wrong_type_is_an_error :
  forall (PF : PyFloat) (PL : PyFloatLaws PF) (JL : JsonLoads)
         e chat_id message_id username (time_range : gmap string json) count w,
    time_range !! "count" = Some count ->
    ((exists s, count = JStr s) \/ (exists l, count = JArr l)
     \/ (exists members, count = JObj members)) ->
    handle_deletion_request e chat_id message_id username time_range w
    = send_telegram_reply chat_id message_id
        (Plain "I encountered an error processing your deletion request. Please try again.")
        w.
Proof.
  intros PF PL JL e chat_id message_id username time_range count w Hc Hty.
  apply handle_deletion_request_raise.
  unfold deletion_candidates, py_get. rewrite Hc.
  by destruct Hty as [[? ->]|[[? ->]|[? ->]]].
Qed.

Lemma count_of_wrong_type_is_an_error_witness :
  let e := Scenario.quiet "2024-05-04T09:00:00" 4000 in
  let time_range : gmap string json :=
    <["count" := JStr "2"]> (<["description" := JStr "last 2 expenses"]> ∅) in
  handle_deletion_request (PF := DecFloat) e 42 "4" "alice" time_range
    Scenario.three_expenses
  = send_telegram_reply 42 "4"
      (Plain "I encountered an error processing your deletion request. Please try again.")
      Scenario.three_expenses.
Proof.
  intros e time_range.
  apply (count_of_wrong_type_is_an_error DecFloat DecFloatLaws SampleJson
           e 42%Z "4" "alice" time_range (JStr "2") Scenario.three_expenses).
  - reflexivity.
  - left. by exists "2".
Defined.

(** X14. A negative count [c] is a slice bound counted from the end: the
    request selects all records of the user but the last [-c] of the sorted
    list (nothing when there are no more than [-c]). *)
Theorem negative_count_drops_from_the_end :
  forall (PF : PyFloat) (PL : PyFloatLaws PF) (JL : JsonLoads)
         e username (time_range : gmap string json) c position w,
    time_range !! "count" = Some (JInt c) -> (c < 0)%Z ->
    time_range !! "position" = Some position ->
    let all := get_all_user_expenses e username w in
    let sorted_expenses :=
      if is_last position then sorted_by newest_first all
      else sorted_by oldest_first all in
    deletion_candidates e username time_range w
    = Ok (take (length all - Z.to_nat (- c)) sorted_expenses).
Proof.
  intros PF PL JL e username time_range c position w Hc Hneg Hp all sorted_expenses.
  unfold sorted_expenses, deletion_candidates, py_get, py_get_default.
  rewrite Hc, Hp. cbn [default id is_none negb of_option mbind result_bind].
  subst all. rewrite first_count_negative by done.
  destruct (is_last position); by rewrite (Permutation_length (sorted_by_perm _ _)).
Qed.

Lemma negative_count_drops_from_the_end_witness :
  let e := Scenario.quiet "2024-05-04T09:00:00" 4000 in
  let time_range : gmap string json :=
    <["count" := JInt (-1)]> (<["position" := JStr "last"]> ∅) in
  (row_id <$> take (3 - 1) (sorted_by newest_first
                              (get_all_user_expenses (PF := DecFloat) e "alice"
                                 Scenario.three_expenses)))
  = ["EXP#alice#2024-05-03T09:00:00"; "EXP#alice#2024-05-02T09:00:00"]
  /\ deletion_candidates e "alice" time_range Scenario.three_expenses
     = Ok (take (length (get_all_user_expenses e "alice" Scenario.three_expenses)
                 - Z.to_nat (- -1))
             (sorted_by newest_first
                (get_all_user_expenses e "alice" Scenario.three_expenses))).
Proof.
  intros e time_range. split; [reflexivity|].
  apply (negative_count_drops_from_the_end DecFloat DecFloatLaws SampleJson
           e "alice" time_range (-1)%Z (JStr "last") Scenario.three_expenses);
    [reflexivity|lia|reflexivity].
Defined.

(** X15. When the scan of the table raises, the exception is swallowed by the
    getter: a deletion request that does not fail for another reason is
    answered with "You don't have any expenses to delete.", and no session is
    opened, whatever the table holds. *)
Theorem failed_scan_reads_as_no_expenses :
  forall (PF : PyFloat) (PL : PyFloatLaws PF) (JL : JsonLoads)
         e chat_id message_id username (time_range : gmap string json) w,
    scan_ok e = false ->
    deletion_candidates e username time_range w <> Raise ->
    handle_deletion_request e chat_id message_id username time_range w
    = send_telegram_reply chat_id message_id
        (Plain "You don't have any expenses to delete.") w.
Proof.
  intros PF PL JL e chat_id message_id username time_range w Hscan Hok.
  apply handle_deletion_request_empty.
  destruct (deletion_candidates e username time_range w) as [l|] eqn:E; [|done].
  by rewrite (deletion_candidates_no_scan _ _ _ _ _ Hscan E).
Qed.

Lemma failed_scan_reads_as_no_expenses_witness :
  let e := {| get_item_ok := true; put_marker_ok := true; put_expense_ok := true;
              scan_ok := false; delete_fails_at := None;
              utcnow := "2024-05-04T09:00:00"; days_ago := fun _ => None;
              time_now := 4000; uuid4 := "3f2a9c1e-7b54-4d6a-9e0f-5c8d1a2b3c4d";
              classifier := NetworkError |} in
  handle_deletion_request (PF := DecFloat) e 42 "4" "alice"
    (extract_deletion_time_range (JL := SampleJson) "delete all my expenses" NetworkError)
    Scenario.three_expenses
  = send_telegram_reply 42 "4" (Plain "You don't have any expenses to delete.")
      Scenario.three_expenses.
Proof.
  intros e.
  apply (failed_scan_reads_as_no_expenses DecFloat DecFloatLaws SampleJson
           e 42%Z "4" "alice"
           (extract_deletion_time_range "delete all my expenses" NetworkError)
           Scenario.three_expenses).
  - reflexivity.
  - discriminate.
Defined.



(** X17. When the [delete_item] call number [i] of a confirmed deletion
    raises, the ids before it are already deleted and stay deleted, the other
    records are untouched, the user gets the error text, and the session is
    kept, so the same code can be sent again. *)
Theorem failed_delete_keeps_the_session :
  forall (PF : PyFloat) (PL : PyFloatLaws PF) (JL : JsonLoads)
         e chat_id message_id username text w s i,
    deletion_confirmations w !! username = Some s ->
    lower text <> "cancel" ->
    delete_fails_at e = Some i -> i < length (expenses_to_delete s) ->
    let w' := handle_deletion_confirmation e chat_id message_id username text w in
    deletion_confirmations w' = deletion_confirmations w
    /\ outbox w'
       = (outbox w
          ++ [{| r_chat_id := chat_id; r_reply_to := message_id;
                 r_text := Plain "I encountered an error while deleting your expenses. Please try again." |}])%list
    /\ (forall k, table w' !! k
                  = if bool_decide (k ∈ take i (expenses_to_delete s)) then None
                    else table w !! k).
Proof.
  intros PF PL JL e chat_id message_id username text w s i Hs Hc Hfail Hi w'.
  unfold w', handle_deletion_confirmation. rewrite Hs.
  apply String.eqb_neq in Hc. rewrite Hc, Hfail, delete_specific_fails.
  rewrite bool_decide_eq_true_2 by done. simpl.
  split; [done|]. split; [done|].
  apply delete_specific_all.
Qed.

Lemma failed_delete_keeps_the_session_witness :
  let e := {| get_item_ok := true; put_marker_ok := true; put_expense_ok := true;
              scan_ok := true; delete_fails_at := Some 1;
              utcnow := "2024-05-04T09:02:00"; days_ago := fun _ => None;
              time_now := 4100; uuid4 := EmptyString; classifier := NetworkError |} in
  let w := Scenario.pending_and_one_more in
  let w' := handle_deletion_confirmation (PF := DecFloat) e 42 "6" "alice"
              "confirm 3f2a9c1e" w in
  deletion_confirmations w' = deletion_confirmations w
  /\ table w' !! "EXP#alice#2024-05-01T09:00:00" = None
  /\ table w' !! "EXP#alice#2024-05-02T09:00:00"
     = table w !! "EXP#alice#2024-05-02T09:00:00".
Proof.
  intros e w w'.
  assert (Hs : deletion_confirmations w !! "alice"
               = Some {| confirmation_code := "3f2a9c1e";
                         s_time_range := Scenario.scope_first_two;
                         expenses_to_delete :=
                           ["EXP#alice#2024-05-01T09:00:00";
                            "EXP#alice#2024-05-02T09:00:00"];
                         s_chat_id := 42;
                         expense_count := 2;
                         expires_at := 4300 |}) by reflexivity.
  destruct (failed_delete_keeps_the_session DecFloat DecFloatLaws SampleJson
              e 42%Z "6" "alice" "confirm 3f2a9c1e" w _ 1 Hs) as (Hd & _ & Ht).
  - vm_compute. discriminate.
  - reflexivity.
  - simpl. lia.
  - split; [exact Hd|]. split.
    + exact (Ht "EXP#alice#2024-05-01T09:00:00").
    + exact (Ht "EXP#alice#2024-05-02T09:00:00").
Defined.

(** X18. The success reply of a confirmed deletion reports the number of ids
    in the snapshot, not the number of records removed: when none of the ids
    is in the table any more, the table is unchanged and the reply still
    names the full count.  The session is closed. *)
Theorem confirmation_reports_the_snapshot_size :
  forall (PF : PyFloat) (PL : PyFloatLaws PF) (JL : JsonLoads)
         e chat_id message_id username text w s description,
    deletion_confirmations w !! username = Some s ->
    lower text <> "cancel" ->
    delete_fails_at e = None ->
    s_time_range s !! "description" = Some description ->
    let w' := handle_deletion_confirmation e chat_id message_id username text w in
    outbox w'
    = (outbox w
       ++ [{| r_chat_id := chat_id; r_reply_to := message_id;
              r_text := DeletionDone (length (expenses_to_delete s)) description |}])%list
    /\ deletion_confirmations w' = delete username (deletion_confirmations w)
    /\ ((forall k, k ∈ expenses_to_delete s -> table w !! k = None) ->
        table w' = table w).
Proof.
  intros PF PL JL e chat_id message_id username text w s description
         Hs Hc Hdel Hdesc w'.
  unfold w', handle_deletion_confirmation. rewrite Hs.
  apply String.eqb_neq in Hc. rewrite Hc, Hdel.
  destruct (delete_specific_all (expenses_to_delete s) (table w)) as [Hcount Hlook].
  destruct (delete_specific_expenses None (expenses_to_delete s) (table w))
    as [r t'] eqn:Ed.
  simpl in Hcount, Hlook. subst r. rewrite Hdesc. simpl.
  split; [done|]. split; [done|].
  intros Hgone. apply map_eq. intros k. rewrite Hlook.
  case_bool_decide; [|done]. symmetry. by apply Hgone.
Qed.

Lemma confirmation_reports_the_snapshot_size_witness :
  let e := Scenario.quiet "2024-05-04T09:02:00" 4100 in
  let w := Scenario.pending_and_one_more in
  let w' := handle_deletion_confirmation (PF := DecFloat) e 42 "6" "alice"
              "confirm 3f2a9c1e" w in
  outbox w'
  = (outbox w
     ++ [{| r_chat_id := 42; r_reply_to := "6";
            r_text := DeletionDone 2 (JStr "first 2 expenses") |}])%list.
Proof.
  intros e w w'.
  assert (Hs : deletion_confirmations w !! "alice"
               = Some {| confirmation_code := "3f2a9c1e";
                         s_time_range := Scenario.scope_first_two;
                         expenses_to_delete :=
                           ["EXP#alice#2024-05-01T09:00:00";
                            "EXP#alice#2024-05-02T09:00:00"];
                         s_chat_id := 42;
                         expense_count := 2;
                         expires_at := 4300 |}) by reflexivity.
  refine (proj1 (confirmation_reports_the_snapshot_size DecFloat DecFloatLaws SampleJson
                   e 42%Z "6" "alice" "confirm 3f2a9c1e" w _ (JStr "first 2 expenses")
                   Hs _ _ _)).
  - vm_compute. discriminate.
  - reflexivity.
  - reflexivity.
Defined.

(** * Deleting all records of a user *)

Section DeleteAll.
Context {PF : PyFloat} {PL : PyFloatLaws PF} {JL : JsonLoads}.

Lemma elem_of_row_ids (l : list row) k :
  k ∈ row_id <$> l <-> exists it, (k, it) ∈ l.
Proof.
  rewrite list_elem_of_fmap. split.
  - intros ([k' it] & -> & H). by exists it.
  - intros (it & H). by exists (k, it).
Qed.

(** After the ids of a scan are deleted, a key holds what it held before
    unless the scan's filter accepted its row. *)
Lemma delete_scanned_lookup f (t : gmap string item) k :
  (delete_specific_expenses None (row_id <$> scan f t) t).2 !! k
  = match t !! k with
    | Some it => if f (k, it) then None else Some it
    | None => None
    end.
Proof.
  rewrite (proj2 (delete_specific_all _ t)). case_bool_decide as Hin.
  - apply elem_of_row_ids in Hin as (it & Hit).
    apply elem_of_scan in Hit as [Hk Hf]. simpl in Hk, Hf. by rewrite Hk, Hf.
  - destruct (t !! k) as [it|] eqn:Hk; [|done].
    destruct (f (k, it)) eqn:Hf; [|done].
    destruct Hin. apply elem_of_row_ids. exists it. by apply elem_of_scan.
Qed.

Lemma scan_nil f (t : gmap string item) :
  (forall k it, t !! k = Some it -> f (k, it) = false) -> scan f t = [].
Proof.
  intros H. apply elem_of_nil_inv. intros [k it] [Hk Hf]%elem_of_scan.
  simpl in Hk, Hf. by rewrite (H k it Hk) in Hf.
Qed.

Lemma with_table_same w : with_table w (table w) = w.
Proof. by destruct w. Qed.


End DeleteAll.



(** X20. [delete_all_user_expenses]: when the scan and every delete call
    succeed, it returns the number of the user's records and removes exactly
    those: a key holds afterwards what it held before unless it held an
    EXPENSE item of the user.  When the scan raises, the getter's empty list
    makes it return 0 and leave the table as it is; it reports no error. *)
Theorem delete_all_user_expenses_removes_exactly :
  forall (PF : PyFloat) (PL : PyFloatLaws PF) (JL : JsonLoads) e username w,
    delete_fails_at e = None ->
    (scan_ok e = true ->
     (delete_all_user_expenses e username w).1
     = Ok (length (scan (is_expense_of username) (table w)))
     /\ (forall k,
           table (delete_all_user_expenses e username w).2 !! k
           = match table w !! k with
             | Some it => if is_expense_of username (k, it) then None else Some it
             | None => None
             end)
     /\ get_all_user_expenses e username (delete_all_user_expenses e username w).2 = [])
    /\ (scan_ok e = false -> delete_all_user_expenses e username w = (Ok 0, w)).
Proof.
  intros PF PL JL e username w Hdel. split; intros Hscan.
  - assert (Hall : get_all_user_expenses e username w
                   = scan (is_expense_of username) (table w))
      by (unfold get_all_user_expenses; by rewrite Hscan).
    unfold delete_all_user_expenses. rewrite Hall, Hdel.
    pose proof (delete_scanned_lookup (is_expense_of username) (table w)) as Hlook.
    destruct (delete_specific_all
                (row_id <$> scan (is_expense_of username) (table w)) (table w))
      as [Hcount _].
    destruct (delete_specific_expenses None _ (table w)) as [r t'] eqn:Ed.
    simpl in Hcount, Hlook. simpl. subst r. rewrite length_fmap.
    split; [done|]. split; [done|].
    unfold get_all_user_expenses. rewrite Hscan. apply scan_nil. simpl.
    intros k it. rewrite Hlook. destruct (table w !! k) as [it'|]; [|done].
    destruct (is_expense_of username (k, it')) eqn:E; [done|]. by intros [= <-].
  - unfold delete_all_user_expenses, get_all_user_expenses. rewrite Hscan, Hdel.
    simpl. by rewrite with_table_same.
Qed.

Lemma delete_all_user_expenses_removes_exactly_witness :
  let e := Scenario.quiet "2024-05-04T09:00:00" 4000 in
  (delete_all_user_expenses (PF := DecFloat) e "alice" Scenario.three_expenses).1
  = Ok (length (scan (is_expense_of "alice") (table Scenario.three_expenses)))
  /\ length (scan (is_expense_of (PF := DecFloat) "alice")
               (table Scenario.three_expenses)) = 3.
Proof.
  intros e. split; [|reflexivity].
  exact (proj1 (proj1 (delete_all_user_expenses_removes_exactly DecFloat DecFloatLaws
                         SampleJson e "alice" Scenario.three_expenses eq_refl)
                  eq_refl)).
Defined.

(** X21. [delete_user_expenses]: when the scan and every delete call succeed,
    it removes exactly the user's EXPENSE items whose timestamp is not before
    [start_time] (compared as strings), and returns their number; the older
    records of the user and all other items stay. *)
Theorem delete_user_expenses_removes_the_window :
  forall (PF : PyFloat) (PL : PyFloatLaws PF) (JL : JsonLoads)
         e username start_time w,
    delete_fails_at e = None -> scan_ok e = true ->
    let in_window (r : row) :=
      is_expense_of username r && String.leb start_time (row_timestamp r) in
    (delete_user_expenses e username start_time w).1
    = Ok (length (scan in_window (table w)))
    /\ (forall k,
          table (delete_user_expenses e username start_time w).2 !! k
          = match table w !! k with
            | Some it => if in_window (k, it) then None else Some it
            | None => None
            end)
    /\ get_user_expenses_for_deletion e username start_time
         (delete_user_expenses e username start_time w).2 = [].
Proof.
  intros PF PL JL e username start_time w Hdel Hscan in_window.
  assert (Hall : get_user_expenses_for_deletion e username start_time w
                 = scan in_window (table w))
    by (unfold get_user_expenses_for_deletion; by rewrite Hscan).
  unfold delete_user_expenses. rewrite Hall, Hdel.
  pose proof (delete_scanned_lookup in_window (table w)) as Hlook.
  destruct (delete_specific_all (row_id <$> scan in_window (table w)) (table w))
    as [Hcount _].
  destruct (delete_specific_expenses None _ (table w)) as [r t'] eqn:Ed.
  simpl in Hcount, Hlook. simpl. subst r. rewrite length_fmap.
  split; [done|]. split; [done|].
  unfold get_user_expenses_for_deletion. rewrite Hscan. fold in_window.
  apply scan_nil. simpl.
  intros k it. rewrite Hlook. destruct (table w !! k) as [it'|]; [|done].
  destruct (in_window (k, it')) eqn:E; [done|]. by intros [= <-].
Qed.

Lemma delete_user_expenses_removes_the_window_witness :
  let e := Scenario.quiet "2024-05-04T09:00:00" 4000 in
  let w' := (delete_user_expenses (PF := DecFloat) e "alice" "2024-05-02T00:00:00"
               Scenario.three_expenses).2 in
  table w' !! "EXP#alice#2024-05-01T09:00:00"
  = table Scenario.three_expenses !! "EXP#alice#2024-05-01T09:00:00"
  /\ table w' !! "EXP#alice#2024-05-03T09:00:00" = None.
Proof.
  intros e w'.
  destruct (delete_user_expenses_removes_the_window DecFloat DecFloatLaws SampleJson
              e "alice" "2024-05-02T00:00:00" Scenario.three_expenses eq_refl eq_refl)
    as (_ & Hlook & _).
  split.
  - exact (Hlook "EXP#alice#2024-05-01T09:00:00").
  - exact (Hlook "EXP#alice#2024-05-03T09:00:00").
Defined.

(** * The analysis of an entry *)

Section Entry.
Context {PF : PyFloat} {PL : PyFloatLaws PF} {JL : JsonLoads}.

Lemma first_category_elem table text_lower c :
  first_category table text_lower = Some c -> c ∈ table.*1.
Proof.
  induction table as [|[category keywords] table IH]; [done|]. simpl.
  destruct (contains_any keywords text_lower).
  - intros [= ->]. by left.
  - intros H. right. by apply IH.
Qed.

(** The analysis of a parsed object with both fields. *)
Lemma parse_gemini_response_object text span data amount c prompt :
  search_json_span text = Some span -> json_loads span = Some (JObj data) ->
  dict_get "amount" data = Some amount ->
  (forall s, amount <> JStr s) ->
  dict_get "category" data = Some (JStr c) ->
  parse_gemini_response text prompt
  = {| a_amount := format_inr amount;
       a_category := title c;
       a_message := default (JStr "Added to expenses! 💰") (dict_get "message" data) |}.
Proof.
  intros Hspan Hloads Ha Hns Hc. unfold parse_gemini_response.
  rewrite Hspan, Hloads. cbn [of_option mbind result_bind]. rewrite Ha, Hc.
  destruct amount; try done. by destruct (Hns s).
Qed.

Lemma handle_entry_unknown_amount e chat_id message_id username text w :
  a_amount (analyze_expense text (classifier e)) = "???" ->
  handle_entry e chat_id message_id username text w
  = ({| statusCode := 200; body := "Instructions sent" |},
     send_telegram_reply chat_id message_id HelpfulMessage w).
Proof.
  intros H. unfold handle_entry. rewrite H.
  by destruct (negb (mentions_listing text)).
Qed.

Lemma analyze_expense_unknown_amount prompt t :
  a_amount (parse_gemini_response t prompt) = "???" ->
  analyze_expense prompt (ResponseText t) = parse_gemini_response t prompt.
Proof. intros H. unfold analyze_expense. simpl. by rewrite H. Qed.

End Entry.

(** X22. The category of the fallback is one of eleven labels; an emoji of
    the electronics list decides before every keyword; and for the six
    labels without a message of their own (Groceries, Vehicle, Health,
    Fashion, Entertainment, Education) the fallback message is the default
    "Added to expenses!" text. *)
Theorem fallback_category_is_known :
  forall text,
    let c := determine_fallback_category text in
    c ∈ fallback_categories
    /\ (contains_any electronics_emojis text = true -> c = "Electronics")
    /\ (c ∈ ["Electronics"; "Bills"; "Food"; "Transport"; "Miscellaneous"]
        \/ generate_fallback_message c = "Added to expenses! 💰").
Proof.
  intros text c. unfold c, determine_fallback_category, fallback_categories.
  destruct (contains_any electronics_emojis text).
  { split; [|split; [done|left]]; repeat constructor. }
  destruct (contains_any food_emojis text).
  { split; [|split; [done|left]]; repeat constructor. }
  destruct (contains_any transport_emojis text).
  { split; [|split; [done|left]]; repeat constructor. }
  destruct (first_category category_keywords (lower text)) as [c'|] eqn:E.
  - apply first_category_elem in E. simpl in E. rewrite !elem_of_cons in E.
    cbn [default id].
    destruct E as [->|[->|[->|[->|[->|[->|[->|[->|[->|[->|E]]]]]]]]]];
      try (by apply elem_of_nil in E);
      (split; [repeat constructor|split; [done|]]);
      first [right; reflexivity | left; repeat constructor].
  - cbn [default id]. split; [|split; [done|left]]; repeat constructor.
Qed.

Lemma fallback_category_is_known_witness :
  determine_fallback_category "new 📱 for 60k" = "Electronics".
Proof.
  apply (fallback_category_is_known "new 📱 for 60k").
  reflexivity.
Defined.

(** X24. When [float] rejects the amount text of the classifier's analysis,
    or reads a number that is not positive, the amount is taken from the
    message by the amount parser, and category and message stay the
    classifier's; when the parser finds no amount the analysis is returned
    with the amount text as it is. *)
Theorem analyze_expense_reparses_rejected_amount :
  forall (PF : PyFloat) (PL : PyFloatLaws PF) (JL : JsonLoads) prompt t,
    let parsed := parse_gemini_response t prompt in
    let manual := extract_inr_amount prompt in
    a_amount parsed <> EmptyString -> a_amount parsed <> "???" ->
    (float_of_str (a_amount parsed) = None
     \/ exists x, float_of_str (a_amount parsed) = Some x /\ float_le0 x = true) ->
    analyze_expense prompt (ResponseText t)
    = (if amount_truthy manual then with_amount parsed (format_amount manual)
       else parsed)
    /\ a_category (analyze_expense prompt (ResponseText t)) = a_category parsed
    /\ a_message (analyze_expense prompt (ResponseText t)) = a_message parsed.
Proof.
  intros PF PL JL prompt t parsed manual Hne Hunk Hbad.
  assert (Heq : analyze_expense prompt (ResponseText t)
                = (if amount_truthy manual
                   then with_amount parsed (format_amount manual) else parsed)).
  { unfold analyze_expense. cbn [response_text mbind result_bind try_except].
    fold parsed. fold manual.
    assert (negb (is_empty (a_amount parsed))
            && negb (String.eqb (a_amount parsed) "???") = true) as ->.
    { apply andb_true_intro. split.
      - by destruct (a_amount parsed).
      - apply negb_true_iff. by apply String.eqb_neq. }
    destruct Hbad as [->|(x & -> & ->)]; done. }
  rewrite Heq. split; [done|]. by destruct (amount_truthy manual).
Qed.

Lemma analyze_expense_reparses_rejected_amount_witness :
  a_amount (parse_gemini_response (PF := DecFloat) (JL := MoreSamples.loads)
              MoreSamples.doc_large_amount "2 pizzas for 1200") = "1,200"
  /\ a_amount (analyze_expense (PF := DecFloat) (JL := MoreSamples.loads)
                 "2 pizzas for 1200" (ResponseText MoreSamples.doc_large_amount)) = "2".
Proof.
  split; [reflexivity|].
  rewrite (proj1 (analyze_expense_reparses_rejected_amount DecFloat DecFloatLaws
                    MoreSamples.loads "2 pizzas for 1200" MoreSamples.doc_large_amount
                    ltac:(discriminate) ltac:(discriminate)
                    (or_introl eq_refl))).
  reflexivity.
Defined.

(** X25. When the classifier answers with an object whose amount is [null],
    a list or an object, [format_inr] gives "???" and the amount parser is
    not consulted: the message is answered with the help text and nothing is
    stored, whatever amount the text holds. *)
Theorem unreadable_classifier_amount_gets_help_text :
  forall (PF : PyFloat) (PL : PyFloatLaws PF) (JL : JsonLoads)
         e chat_id message_id username text w t span data amount c,
    classifier e = ResponseText t ->
    search_json_span t = Some span -> json_loads span = Some (JObj data) ->
    dict_get "amount" data = Some amount ->
    (amount = JNull \/ (exists l, amount = JArr l)
     \/ (exists members, amount = JObj members)) ->
    dict_get "category" data = Some (JStr c) ->
    handle_entry e chat_id message_id username text w
    = ({| statusCode := 200; body := "Instructions sent" |},
       send_telegram_reply chat_id message_id HelpfulMessage w).
Proof.
  intros PF PL JL e chat_id message_id username text w t span data amount c
         Hcl Hspan Hloads Ha Hty Hc.
  apply handle_entry_unknown_amount. rewrite Hcl.
  assert (Hp : a_amount (parse_gemini_response t text) = "???").
  { rewrite (parse_gemini_response_object t span data amount c text) by
      (try done; intros s ->; by destruct Hty as [?|[[? ?]|[? ?]]]).
    simpl. by destruct Hty as [->|[[? ->]|[? ->]]]. }
  by rewrite analyze_expense_unknown_amount.
Qed.

Lemma unreadable_classifier_amount_gets_help_text_witness :
  let e := Scenario.answering (ResponseText MoreSamples.doc_null_amount)
             (Scenario.quiet "2024-05-01T09:00:00" 1000) in
  handle_entry (PF := DecFloat) (JL := MoreSamples.loads) e 42 "1" "alice"
    "spent 500 on dinner" initial_world
  = ({| statusCode := 200; body := "Instructions sent" |},
     send_telegram_reply 42 "1" HelpfulMessage initial_world).
Proof.
  intros e.
  apply (unreadable_classifier_amount_gets_help_text DecFloat DecFloatLaws
           MoreSamples.loads e 42%Z "1" "alice" "spent 500 on dinner" initial_world
           MoreSamples.doc_null_amount MoreSamples.doc_null_amount
           [("amount", JNull); ("category", JStr "food")] JNull "food");
    try reflexivity.
  by left.
Defined.

(** X26. An ASCII message without a digit that reaches the entry lane while
    the classifier call fails is answered with the help text, and nothing is
    stored. *)
Theorem digitless_entry_gets_help_text :
  forall (PF : PyFloat) (PL : PyFloatLaws PF) (JL : JsonLoads)
         e chat_id message_id username text w,
    is_ascii text = true ->
    no_digit text = true ->
    response_text (classifier e) = Raise ->
    handle_entry e chat_id message_id username text w
    = ({| statusCode := 200; body := "Instructions sent" |},
       send_telegram_reply chat_id message_id HelpfulMessage w).
Proof.
  intros PF PL JL e chat_id message_id username text w _ Hnd Hcl.
  apply handle_entry_unknown_amount. unfold analyze_expense. rewrite Hcl.
  cbn [mbind result_bind try_except]. unfold fallback_analysis.
  by rewrite extract_inr_amount_no_digit.
Qed.

Lemma digitless_entry_gets_help_text_witness :
  handle_entry (PF := DecFloat) (JL := SampleJson)
    (Scenario.quiet "2024-05-01T09:00:00" 1000) 42 "1" "alice"
    "coffee with friends" initial_world
  = ({| statusCode := 200; body := "Instructions sent" |},
     send_telegram_reply 42 "1" HelpfulMessage initial_world).
Proof.
  apply (digitless_entry_gets_help_text DecFloat DecFloatLaws SampleJson);
    reflexivity.
Defined.

(** * The query lane *)

(** X27. The scope of a query always holds the keys [days] and
    [description], so in [get_user_expenses] neither the default of 7 days
    applies nor the log line raises: when the classifier's object names no
    days, or the call fails, the window is 30 days. *)
Theorem query_window_defaults_to_30_days :
  forall (PF : PyFloat) (PL : PyFloatLaws PF) (JL : JsonLoads) query o e username w,
    let time_range := extract_time_range_from_query query o in
    (forall dflt, py_get_default time_range "days" dflt = py_get time_range "days")
    /\ is_Some (time_range !! "description")
    /\ ((forall data, extracted_object o = Ok (Some data) -> dict_get "days" data = None) ->
        time_range !! "days" = Some (JInt 30)
        /\ get_user_expenses e username time_range w
           = match days_ago e (JInt 30) with
             | Some start_time =>
                 if scan_ok e
                 then scan (fun r => is_expense_of username r
                                     && String.leb start_time (row_timestamp r)
                                     && positive_amount r) (table w)
                 else []
             | None => []
             end).
Proof.
  intros PF PL JL query o e username w time_range.
  unfold time_range, extract_time_range_from_query, py_get_default, py_get.
  split; [|split].
  - intros dflt. destruct (extracted_object o) as [[data|]|]; by simplify_map_eq.
  - destruct (extracted_object o) as [[data|]|]; by simplify_map_eq.
  - intros Hno. unfold get_user_expenses, py_get_default.
    destruct (extracted_object o) as [[data|]|]; simplify_map_eq; try done.
    unfold obj_get_default. by rewrite (Hno data eq_refl).
Qed.

Lemma query_window_defaults_to_30_days_witness :
  extract_time_range_from_query (PF := DecFloat) (JL := SampleJson)
    "show my expenses" Timeout !! "days" = Some (JInt 30).
Proof.
  refine (proj1 (proj2 (proj2 (query_window_defaults_to_30_days DecFloat DecFloatLaws
                                 SampleJson "show my expenses" Timeout
                                 (Scenario.quiet "2024-05-04T09:00:00" 4000) "alice"
                                 initial_world)) _)).
  intros data. discriminate.
Defined.

(** X28. A query is read-only: a new message of a user without a pending
    session that is an expense query and no deletion request is answered
    "Expense query processed"; the reply carries the list
    [get_user_expenses] returns for the extracted scope, and only the marker
    of the message is written. *)
Theorem query_is_read_only :
  forall (PF : PyFloat) (PL : PyFloatLaws PF) (JL : JsonLoads) e m w chat_id,
    m_chat_id m = Some chat_id -> accepted m = true ->
    check_if_processed e (message_id_of m) w = false ->
    deletion_confirmations w !! username_of m = None ->
    is_deletion_request (text_of m) = false ->
    is_expense_query (text_of m) = true ->
    let time_range := extract_time_range_from_query (text_of m) (classifier e) in
    let w1 := mark_as_processed e (message_id_of m) w in
    lambda_handler e (Update m) w
    = ({| statusCode := 200; body := "Expense query processed" |},
       send_telegram_reply chat_id (message_id_of m)
         (ExpenseSummary (get_user_expenses e (username_of m) time_range w1) time_range)
         w1).
Proof.
  intros PF PL JL e m w chat_id Hchat Hacc Hnew Hnone Hdel Hq time_range w1.
  destruct (lambda_handler_accepted e m w Hacc) as (chat_id' & Hchat' & ->).
  rewrite Hchat in Hchat'. injection Hchat' as <-. rewrite Hnew.
  unfold route, is_deletion_confirmation.
  rewrite mark_as_processed_confirmations, Hnone, Hdel, Hq. done.
Qed.

Lemma query_is_read_only_witness :
  let e := Scenario.quiet "2024-05-04T09:00:00" 4000 in
  let m := Scenario.from_alice "show my expenses" (Some 4%Z) in
  table (lambda_handler e (Update m) Scenario.three_expenses).2
  = table (mark_as_processed e "4" Scenario.three_expenses).
Proof.
  intros e m.
  exact (f_equal (fun p => table p.2)
           (query_is_read_only DecFloat DecFloatLaws SampleJson e m
              Scenario.three_expenses 42%Z eq_refl eq_refl eq_refl eq_refl
              eq_refl eq_refl)).
Defined.

(** X29. The lanes are tried in a fixed order: a new message of a user
    without a pending session whose text is a deletion request is handled as
    one, also when the text is an expense query as well ("delete my
    expenses" holds "my expenses"); the handler answers "Deletion request
    processed" and writes nothing to the table but the marker. *)
Theorem deletion_request_wins_over_query :
  forall (PF : PyFloat) (PL : PyFloatLaws PF) (JL : JsonLoads) e m w chat_id,
    m_chat_id m = Some chat_id -> accepted m = true ->
    check_if_processed e (message_id_of m) w = false ->
    deletion_confirmations w !! username_of m = None ->
    is_deletion_request (text_of m) = true ->
    let w1 := mark_as_processed e (message_id_of m) w in
    lambda_handler e (Update m) w
    = ({| statusCode := 200; body := "Deletion request processed" |},
       handle_deletion_request e chat_id (message_id_of m) (username_of m)
         (extract_deletion_time_range (text_of m) (classifier e)) w1)
    /\ table (lambda_handler e (Update m) w).2 = table w1.
Proof.
  intros PF PL JL e m w chat_id Hchat Hacc Hnew Hnone Hdel w1.
  assert (Heq : lambda_handler e (Update m) w
                = ({| statusCode := 200; body := "Deletion request processed" |},
                   handle_deletion_request e chat_id (message_id_of m) (username_of m)
                     (extract_deletion_time_range (text_of m) (classifier e)) w1)).
  { destruct (lambda_handler_accepted e m w Hacc) as (chat_id' & Hchat' & ->).
    rewrite Hchat in Hchat'. injection Hchat' as <-. rewrite Hnew.
    unfold route, is_deletion_confirmation.
    by rewrite mark_as_processed_confirmations, Hnone, Hdel. }
  split; [exact Heq|]. rewrite Heq.
  apply (handle_deletion_request_world e chat_id (message_id_of m) (username_of m)).
Qed.

Lemma deletion_request_wins_over_query_witness :
  let e := Scenario.quiet "2024-05-04T09:00:00" 4000 in
  let m := Scenario.from_alice "delete my expenses" (Some 4%Z) in
  is_expense_query (text_of m) = true
  /\ body (lambda_handler e (Update m) Scenario.three_expenses).1
     = "Deletion request processed".
Proof.
  intros e m. split; [reflexivity|].
  exact (f_equal (fun p => body p.1)
           (proj1 (deletion_request_wins_over_query DecFloat DecFloatLaws SampleJson
                     e m Scenario.three_expenses 42%Z eq_refl eq_refl eq_refl
                     eq_refl eq_refl))).
Defined.
